(** * Fifty random rectangles on a WebGL canvas (TinyGo): a shallow embedding

    The Go program [main.go] is a straight-line sequence of calls into the
    browser (through [syscall/js]) and into a WebGL context (through the
    [webgl] wrapper package), followed by a loop that uploads, colours and
    draws fifty random rectangles.

    The embedding keeps that shape:
    - [float32] values are IEEE-754 binary32 numbers ([spec_float] with a
      24-bit significand), with Go's conversions and additions rounded to
      nearest-even;
    - every call that leaves the program is an [Event]; running a function
      yields its result, the next state of the random source and the list of
      events it issued, in program order;
    - what the browser answers (canvas size, context creation, compile and
      link status, handles, locations) is a [Host] record the program is run
      against;
    - [math/rand] is an interface ([Rand]) with the documented ranges of
      [Intn] and [Float32] as its laws;
    - the GLSL vertex shader is embedded over an abstract scalar type, and
      instantiated over binary32. *)

From Stdlib Require Import ZArith List Bool String QArith Qabs Lia.
From Stdlib Require Import Floats.SpecFloat.
From stdpp Require Import base option gmap.
Import ListNotations.

Local Open Scope Z_scope.

(** ** binary32 *)

Definition float32 : Type := spec_float.

Module F32.

Definition prec : Z := 24.
Definition emax : Z := 128.

(** Go's [float32(n)] for an integer [n]: round to nearest, ties to even. *)
Definition of_Z (n : Z) : float32 := binary_normalize prec emax n 0 false.

Definition add : float32 -> float32 -> float32 := SFadd prec emax.
Definition sub : float32 -> float32 -> float32 := SFsub prec emax.
Definition mul : float32 -> float32 -> float32 := SFmul prec emax.
Definition div : float32 -> float32 -> float32 := SFdiv prec emax.

Definition ltb : float32 -> float32 -> bool := SFltb.
Definition leb : float32 -> float32 -> bool := SFleb.

Definition zero : float32 := of_Z 0.
Definition one : float32 := of_Z 1.

(** Structural equality on binary32 values, as a boolean. *)
Definition same (a b : float32) : bool :=
  match a, b with
  | S754_zero s, S754_zero t => Bool.eqb s t
  | S754_infinity s, S754_infinity t => Bool.eqb s t
  | S754_nan, S754_nan => true
  | S754_finite s m e, S754_finite t n f =>
      Bool.eqb s t && Pos.eqb m n && Z.eqb e f
  | _, _ => false
  end.

(** [x] lies in the half-open interval from [lo] to [hi]. *)
Definition in_range (lo hi x : float32) : Prop :=
  leb lo x = true /\ ltb x hi = true.

End F32.

(** ** Values crossing the JavaScript boundary *)

(** A [*js.Value] as the program sees it.  The zero [js.Value{}] is
    JavaScript's [undefined]; objects created by the browser are references. *)
Inductive jsValue : Type :=
| JSUndefined
| JSNull
| JSObject (ref : positive).

Definition jsValue_eqb (a b : jsValue) : bool :=
  match a, b with
  | JSUndefined, JSUndefined => true
  | JSNull, JSNull => true
  | JSObject r, JSObject r' => Pos.eqb r r'
  | _, _ => false
  end.

(** The names of the [webgl] package's constants the program mentions,
    together with the sibling usage hints and primitive modes of the same
    groups. *)
Inductive GLenum : Type :=
| VERTEX_SHADER | FRAGMENT_SHADER
| COMPILE_STATUS | LINK_STATUS
| ARRAY_BUFFER | ELEMENT_ARRAY_BUFFER
| STREAM_DRAW | STATIC_DRAW | DYNAMIC_DRAW
| FLOAT
| COLOR_BUFFER_BIT
| POINTS | LINES | TRIANGLES.

(** [webgl.ContextAttributes]: the context-creation flags. *)
Record ContextAttributes : Type := {
  Alpha : bool;
  Depth : bool;
  Stencil : bool;
  Antialias : bool;
  PremultipliedAlpha : bool;
  PreserveDrawingBuffer : bool
}.

Definition setAlpha (a : bool) (attrs : ContextAttributes) : ContextAttributes :=
  {| Alpha := a;
     Depth := Depth attrs;
     Stencil := Stencil attrs;
     Antialias := Antialias attrs;
     PremultipliedAlpha := PremultipliedAlpha attrs;
     PreserveDrawingBuffer := PreserveDrawingBuffer attrs |}.

(** A [Float32Array] made by [webgl.SliceToTypedArray]. *)
Record TypedArray : Type := { elems : list float32 }.

Definition BYTES_PER_ELEMENT : Z := 4.

Definition byteLength (a : TypedArray) : Z :=
  BYTES_PER_ELEMENT * Z.of_nat (length (elems a)).

Definition SliceToTypedArray (s : list float32) : TypedArray := {| elems := s |}.

(** ** Events: every call that leaves the Go program *)

Inductive Event : Type :=
(* syscall/js *)
| GetElementById (id : string)
| SetAttribute (name : string) (value : Z)
| Alert (msg : string)
(* the built-in println *)
| Println (msg : string)
(* webgl *)
| NewContext (attrs : ContextAttributes)
| CreateShader (shaderType : GLenum)
| ShaderSource (shader : jsValue) (source : string)
| CompileShader (shader : jsValue)
| GetShaderParameter (shader : jsValue) (pname : GLenum)
| GetShaderInfoLog (shader : jsValue)
| DeleteShader (shader : jsValue)
| CreateProgram
| AttachShader (program shader : jsValue)
| LinkProgram (program : jsValue)
| GetProgramParameterb (program : jsValue) (pname : GLenum)
| GetProgramInfoLog (program : jsValue)
| DeleteProgram (program : jsValue)
| GetAttribLocation (program : jsValue) (name : string)
| GetUniformLocation (program : jsValue) (name : string)
| CreateArrayBuffer
| BindBuffer (target : GLenum) (buffer : jsValue)
| Viewport (x y width height : Z)
| ClearColor (r g b a : float32)
| Clear (mask : GLenum)
| UseProgram (program : jsValue)
| EnableVertexAttribArray (index : Z)
| VertexAttribPointer (index size : Z) (type : GLenum) (normalize : bool)
                      (stride offset : Z)
| Uniform2f (location : jsValue) (x y : float32)
| Uniform4f (location : jsValue) (x y z w : float32)
| BufferData (target : GLenum) (data : TypedArray) (usage : GLenum)
| DrawArrays (mode : GLenum) (first count : Z).

(** ** The browser's answers *)

Record Host : Type := {
  clientWidth : Z;
  clientHeight : Z;
  DefaultAttributes : ContextAttributes;
  (** [Some msg] when [webgl.NewContext] returns a non-nil error whose
      [Error()] is [msg]. *)
  contextError : ContextAttributes -> option string;
  newShader : GLenum -> positive;
  compileStatus : jsValue -> bool;
  shaderInfoLog : jsValue -> string;
  newProgram : positive;
  linkStatus : jsValue -> bool;
  programInfoLog : jsValue -> string;
  attribLocation : jsValue -> string -> Z;
  uniformLocation : jsValue -> string -> jsValue;
  newBuffer : positive
}.

(** ** math/rand *)

(** The two top-level functions of [math/rand] the program calls, over the
    state [G] of the package's global source, with their documented ranges:
    [Intn n] is in the half-open interval from 0 to [n] for positive [n]
    (it panics otherwise; the program only calls it with 300), [Float32] in
    the half-open interval from 0.0 to 1.0. *)
Class Rand (G : Type) : Type := {
  Intn : Z -> G -> Z * G;
  Float32 : G -> float32 * G;
  Intn_range : forall n g, 0 < n -> 0 <= fst (Intn n g) < n;
  Float32_range : forall g, F32.in_range F32.zero F32.one (fst (Float32 g))
}.

(** ** The program *)

(** Vertex shader source code, as the Go raw string literal has it. *)
Definition vertCode : string := "
	// an attribute will receive data from a buffer
	attribute vec2 a_position;

	uniform vec2 u_resolution;

	// all shaders have a main function
	void main() {
		// convert the position from pixels to 0.0 to 1.0
		vec2 zeroToOne = a_position.xy / u_resolution;
		
		// convert from 0->1 to 0->2
		vec2 zeroToTwo = zeroToOne * 2.0;
		
		// convert from 0->2 to -1->+1 (clip space)
		vec2 clipSpace = zeroToTwo - 1.0;
		
		gl_Position = vec4(clipSpace * vec2(1, -1), 0, 1);
	}"%string.

(** Fragment shader source code. *)
Definition fragCode : string := "
	precision mediump float;
	
	uniform vec4 u_color;

	void main() {
		gl_FragColor = u_color;
	}"%string.

Section Program.

Context {G : Type} {rnd : Rand G}.

(** A computation returns its result, the next state of the random source
    and the events it issued, oldest first. *)
Definition M (A : Type) : Type := G -> A * G * list Event.

Definition ret {A} (a : A) : M A := fun g => (a, g, []).

Definition bind {A B} (m : M A) (k : A -> M B) : M B :=
  fun g =>
    let '(a, g1, t1) := m g in
    let '(b, g2, t2) := k a g1 in
    (b, g2, t1 ++ t2).

Notation "x <- m ;; k" := (bind m (fun x => k))
  (at level 100, m at next level, k at level 200, right associativity).
Notation "m ;;; k" := (bind m (fun _ => k))
  (at level 100, k at level 200, right associativity).

(** A call with no result the program looks at. *)
Definition call (e : Event) : M unit := fun g => (tt, g, [e]).

(** A call whose result [a] the host supplies. *)
Definition ask {A} (e : Event) (a : A) : M A := fun g => (a, g, [e]).

Definition value {A} (m : M A) (g : G) : A := fst (fst (m g)).
Definition next {A} (m : M A) (g : G) : G := snd (fst (m g)).
Definition trace {A} (m : M A) (g : G) : list Event := snd (m g).

(** [rand.Intn] and [rand.Float32] on the global source. *)
Definition rand_Intn (n : Z) : M Z := fun g => (fst (Intn n g), snd (Intn n g), []).
Definition rand_Float32 : M float32 :=
  fun g => (fst (Float32 g), snd (Float32 g), []).

(** [for i := 0; i < n; i++ { body }], for a body that does not read [i]. *)
Fixpoint for_ (n : nat) (body : M unit) : M unit :=
  match n with
  | O => ret tt
  | S k => body ;;; for_ k body
  end.

(** *** createShader *)
Definition createShader (gl : Host) (shaderType : GLenum) (source : string)
  : M jsValue :=
  shader <- ask (CreateShader shaderType) (JSObject (newShader gl shaderType)) ;;
  call (ShaderSource shader source) ;;;
  call (CompileShader shader) ;;;
  success <- ask (GetShaderParameter shader COMPILE_STATUS) (compileStatus gl shader) ;;
  if success : bool then ret shader
  else
    log <- ask (GetShaderInfoLog shader) (shaderInfoLog gl shader) ;;
    call (Println log) ;;;
    call (DeleteShader shader) ;;;
    ret JSUndefined.

(** *** createProgram *)
Definition createProgram (gl : Host) (vertexShader fragmentShader : jsValue)
  : M jsValue :=
  program <- ask CreateProgram (JSObject (newProgram gl)) ;;
  call (AttachShader program vertexShader) ;;;
  call (AttachShader program fragmentShader) ;;;
  call (LinkProgram program) ;;;
  success <- ask (GetProgramParameterb program LINK_STATUS) (linkStatus gl program) ;;
  if success : bool then ret program
  else
    log <- ask (GetProgramInfoLog program) (programInfoLog gl program) ;;
    call (Println log) ;;;
    call (DeleteProgram program) ;;;
    ret JSUndefined.

(** *** setRectangle: fill the buffer with the values that define a rectangle *)
Definition positionsNative (x y width height : float32) : list float32 :=
  let x1 := x in
  let x2 := F32.add x width in
  let y1 := y in
  let y2 := F32.add y height in
  [ x1; y1;
    x2; y1;
    x1; y2;
    x1; y2;
    x2; y1;
    x2; y2 ].

Definition setRectangle (gl : Host) (x y width height : float32) : M unit :=
  let positions := SliceToTypedArray (positionsNative x y width height) in
  call (BufferData ARRAY_BUFFER positions STATIC_DRAW).

(** *** The body of the drawing loop *)
Definition loopBody (gl : Host) (colorUniformLocation : jsValue) : M unit :=
  x <- rand_Intn 300 ;;
  y <- rand_Intn 300 ;;
  width <- rand_Intn 300 ;;
  height <- rand_Intn 300 ;;
  setRectangle gl (F32.of_Z x) (F32.of_Z y) (F32.of_Z width) (F32.of_Z height) ;;;
  r <- rand_Float32 ;;
  g <- rand_Float32 ;;
  b <- rand_Float32 ;;
  call (Uniform4f colorUniformLocation r g b (F32.of_Z 1)) ;;;
  let primType := TRIANGLES in
  let primOffset := 0 in
  let primCount := 6 in
  call (DrawArrays primType primOffset primCount).

(** *** main *)
Definition main (host : Host) : M unit :=
  call (GetElementById "mycanvas") ;;;
  let width := clientWidth host in
  let height := clientHeight host in
  call (SetAttribute "width" width) ;;;
  call (SetAttribute "height" height) ;;;
  let attrs := DefaultAttributes host in
  let attrs := setAlpha false attrs in
  err <- ask (NewContext attrs) (contextError host attrs) ;;
  match err with
  | Some msg => call (Alert (String.append "Error: " msg))
  | None =>
    let gl := host in
    vertexShader <- createShader gl VERTEX_SHADER vertCode ;;
    fragmentShader <- createShader gl FRAGMENT_SHADER fragCode ;;
    program <- createProgram gl vertexShader fragmentShader ;;
    positionAttributeLocation <-
      ask (GetAttribLocation program "a_position")
          (attribLocation gl program "a_position") ;;
    resolutionUniformLocation <-
      ask (GetUniformLocation program "u_resolution")
          (uniformLocation gl program "u_resolution") ;;
    colorUniformLocation <-
      ask (GetUniformLocation program "u_color")
          (uniformLocation gl program "u_color") ;;
    positionBuffer <- ask CreateArrayBuffer (JSObject (newBuffer gl)) ;;
    call (BindBuffer ARRAY_BUFFER positionBuffer) ;;;
    call (Viewport 0 0 width height) ;;;
    call (ClearColor (F32.of_Z 0) (F32.of_Z 0) (F32.of_Z 0) (F32.of_Z 0)) ;;;
    call (Clear COLOR_BUFFER_BIT) ;;;
    call (UseProgram program) ;;;
    call (EnableVertexAttribArray positionAttributeLocation) ;;;
    call (BindBuffer ARRAY_BUFFER positionBuffer) ;;;
    let pbSize := 2 in
    let pbType := FLOAT in
    let pbNormalize := false in
    let pbStride := 0 in
    let pbOffset := 0 in
    call (VertexAttribPointer positionAttributeLocation pbSize pbType pbNormalize
                              pbStride pbOffset) ;;;
    call (Uniform2f resolutionUniformLocation (F32.of_Z width) (F32.of_Z height)) ;;;
    for_ 50 (loopBody gl colorUniformLocation)
  end.

End Program.

Arguments M G : clear implicits.

(** ** What the calls do to the context

    The part of the WebGL state machine the program drives: the buffer bound
    to [ARRAY_BUFFER], the data store and usage hint of every buffer object,
    the value of every uniform location, the program in use, the viewport,
    the clear colour, the vertex attribute set-up, and the draw calls
    executed so far.  A [BufferData] call gives the bound buffer a new data
    store (and is an error without effect when none is bound); a uniform
    call on a null or undefined location is ignored. *)

Record GLState : Type := {
  arrayBufferBinding : jsValue;
  buffers : gmap positive (list float32 * GLenum);
  uniforms : gmap positive (list float32);
  currentProgram : jsValue;
  viewport : Z * Z * Z * Z;
  clearColor : float32 * float32 * float32 * float32;
  enabledAttribs : list Z;
  attribPointers : list (Z * (Z * GLenum * bool * Z * Z));
  draws : list (GLenum * Z * Z)
}.

Definition setUniform (l : jsValue) (v : list float32) (st : GLState) : GLState :=
  match l with
  | JSObject r =>
      {| arrayBufferBinding := arrayBufferBinding st;
         buffers := buffers st;
         uniforms := <[r := v]> (uniforms st);
         currentProgram := currentProgram st;
         viewport := viewport st;
         clearColor := clearColor st;
         enabledAttribs := enabledAttribs st;
         attribPointers := attribPointers st;
         draws := draws st |}
  | _ => st
  end.

Definition setBufferData (data : TypedArray) (usage : GLenum) (st : GLState)
  : GLState :=
  match arrayBufferBinding st with
  | JSObject b =>
      {| arrayBufferBinding := arrayBufferBinding st;
         buffers := <[b := (elems data, usage)]> (buffers st);
         uniforms := uniforms st;
         currentProgram := currentProgram st;
         viewport := viewport st;
         clearColor := clearColor st;
         enabledAttribs := enabledAttribs st;
         attribPointers := attribPointers st;
         draws := draws st |}
  | _ => st
  end.

Definition step (st : GLState) (e : Event) : GLState :=
  match e with
  | BindBuffer ARRAY_BUFFER b =>
      {| arrayBufferBinding := b;
         buffers := buffers st;
         uniforms := uniforms st;
         currentProgram := currentProgram st;
         viewport := viewport st;
         clearColor := clearColor st;
         enabledAttribs := enabledAttribs st;
         attribPointers := attribPointers st;
         draws := draws st |}
  | BufferData ARRAY_BUFFER data usage => setBufferData data usage st
  | Uniform2f l x y => setUniform l [x; y] st
  | Uniform4f l x y z w => setUniform l [x; y; z; w] st
  | UseProgram p =>
      {| arrayBufferBinding := arrayBufferBinding st;
         buffers := buffers st;
         uniforms := uniforms st;
         currentProgram := p;
         viewport := viewport st;
         clearColor := clearColor st;
         enabledAttribs := enabledAttribs st;
         attribPointers := attribPointers st;
         draws := draws st |}
  | Viewport x y w h =>
      {| arrayBufferBinding := arrayBufferBinding st;
         buffers := buffers st;
         uniforms := uniforms st;
         currentProgram := currentProgram st;
         viewport := (x, y, w, h);
         clearColor := clearColor st;
         enabledAttribs := enabledAttribs st;
         attribPointers := attribPointers st;
         draws := draws st |}
  | ClearColor r g b a =>
      {| arrayBufferBinding := arrayBufferBinding st;
         buffers := buffers st;
         uniforms := uniforms st;
         currentProgram := currentProgram st;
         viewport := viewport st;
         clearColor := (r, g, b, a);
         enabledAttribs := enabledAttribs st;
         attribPointers := attribPointers st;
         draws := draws st |}
  | EnableVertexAttribArray i =>
      {| arrayBufferBinding := arrayBufferBinding st;
         buffers := buffers st;
         uniforms := uniforms st;
         currentProgram := currentProgram st;
         viewport := viewport st;
         clearColor := clearColor st;
         enabledAttribs := i :: enabledAttribs st;
         attribPointers := attribPointers st;
         draws := draws st |}
  | VertexAttribPointer i size type normalize stride offset =>
      {| arrayBufferBinding := arrayBufferBinding st;
         buffers := buffers st;
         uniforms := uniforms st;
         currentProgram := currentProgram st;
         viewport := viewport st;
         clearColor := clearColor st;
         enabledAttribs := enabledAttribs st;
         attribPointers :=
           (i, (size, type, normalize, stride, offset)) :: attribPointers st;
         draws := draws st |}
  | DrawArrays mode first count =>
      {| arrayBufferBinding := arrayBufferBinding st;
         buffers := buffers st;
         uniforms := uniforms st;
         currentProgram := currentProgram st;
         viewport := viewport st;
         clearColor := clearColor st;
         enabledAttribs := enabledAttribs st;
         attribPointers := attribPointers st;
         draws := draws st ++ [(mode, first, count)] |}
  | _ => st
  end.

Definition steps (st : GLState) (t : list Event) : GLState := fold_left step t st.

(** ** Reading a trace *)

(** Calls that create, change or use an object of the WebGL context. *)
Definition isGL (e : Event) : bool :=
  match e with
  | GetElementById _ | SetAttribute _ _ | Alert _ | Println _ | NewContext _ => false
  | _ => true
  end.

Definition isDraw (e : Event) : bool :=
  match e with DrawArrays _ _ _ => true | _ => false end.

Definition isUniform2f (e : Event) : bool :=
  match e with Uniform2f _ _ _ => true | _ => false end.

(** The data of the [BufferData] calls, in order. *)
Fixpoint uploads (t : list Event) : list (list float32) :=
  match t with
  | [] => []
  | BufferData _ data _ :: t' => elems data :: uploads t'
  | _ :: t' => uploads t'
  end.

(** The arguments of the [Uniform4f] calls, in order. *)
Fixpoint colors (t : list Event)
  : list (jsValue * (float32 * float32 * float32 * float32)) :=
  match t with
  | [] => []
  | Uniform4f l r g b a :: t' => (l, (r, g, b, a)) :: colors t'
  | _ :: t' => colors t'
  end.

(** A flat array read two components per vertex, as the attribute pointer
    of the program (size 2, stride 0, offset 0) has it. *)
Fixpoint vertices (a : list float32) : list (float32 * float32) :=
  match a with
  | x :: y :: a' => (x, y) :: vertices a'
  | _ => []
  end.

(** ** The vertex shader

    The [main] function of [vertCode], over a scalar type with the
    arithmetic the shader uses, read over binary32: each division,
    multiplication and subtraction is rounded to nearest-even. *)

Module Shader.

Class Scalar (T : Type) : Type := {
  lit : Z -> T;
  sdiv : T -> T -> T;
  smul : T -> T -> T;
  ssub : T -> T -> T
}.

Section Vert.

Context {T : Type} {ops : Scalar T}.

Definition vec2 : Type := T * T.
Definition vec4 : Type := T * T * T * T.

(** Component-wise operators of GLSL on [vec2]. *)
Definition div_vv (a b : vec2) : vec2 := (sdiv (fst a) (fst b), sdiv (snd a) (snd b)).
Definition mul_vs (a : vec2) (k : T) : vec2 := (smul (fst a) k, smul (snd a) k).
Definition sub_vs (a : vec2) (k : T) : vec2 := (ssub (fst a) k, ssub (snd a) k).
Definition mul_vv (a b : vec2) : vec2 := (smul (fst a) (fst b), smul (snd a) (snd b)).

(** [void main()]: the value written to [gl_Position]. *)
Definition vert_main (a_position u_resolution : vec2) : vec4 :=
  let zeroToOne := div_vv a_position u_resolution in
  let zeroToTwo := mul_vs zeroToOne (lit 2) in
  let clipSpace := sub_vs zeroToTwo (lit 1) in
  let flipped := mul_vv clipSpace (lit 1, lit (-1)) in
  (fst flipped, snd flipped, lit 0, lit 1).

End Vert.

#[global] Instance binary32 : Scalar float32 := {|
  lit := F32.of_Z;
  sdiv := F32.div;
  smul := F32.mul;
  ssub := F32.sub
|}.

(** The fragment shader's [main]: [gl_FragColor = u_color]. *)
Definition frag_main {T : Type} (u_color : T * T * T * T) : T * T * T * T := u_color.

End Shader.

(** ** The random values of one iteration *)

Section Samples.

Context {G : Type} {rnd : Rand G}.

(** The four rectangle parameters sampled from state [g], in the order
    the argument list of [setRectangle] evaluates them, and the state
    after them. *)
Definition rectParams (g : G) : Z * Z * Z * Z :=
  let g1 := snd (Intn 300 g) in
  let g2 := snd (Intn 300 g1) in
  let g3 := snd (Intn 300 g2) in
  (fst (Intn 300 g), fst (Intn 300 g1), fst (Intn 300 g2), fst (Intn 300 g3)).

Definition afterRect (g : G) : G :=
  snd (Intn 300 (snd (Intn 300 (snd (Intn 300 (snd (Intn 300 g))))))).

(** The three colour channels sampled after them. *)
Definition colorParams (g : G) : float32 * float32 * float32 :=
  let g4 := afterRect g in
  let g5 := snd (Float32 g4) in
  let g6 := snd (Float32 g5) in
  (fst (Float32 g4), fst (Float32 g5), fst (Float32 g6)).

Definition afterColor (g : G) : G :=
  snd (Float32 (snd (Float32 (snd (Float32 (afterRect g)))))).

(** The random state at the start of iteration [i], from [g] at the start
    of the loop. *)
Fixpoint stateAt (i : nat) (g : G) : G :=
  match i with
  | O => g
  | S k => stateAt k (afterColor g)
  end.

Definition rectData (p : Z * Z * Z * Z) : list float32 :=
  let '(x, y, w, h) := p in
  positionsNative (F32.of_Z x) (F32.of_Z y) (F32.of_Z w) (F32.of_Z h).

(** The three calls of one iteration. *)
Definition iterationEvents (colorUniformLocation : jsValue) (g : G) : list Event :=
  let '(r, gr, b) := colorParams g in
  [ BufferData ARRAY_BUFFER (SliceToTypedArray (rectData (rectParams g))) STATIC_DRAW;
    Uniform4f colorUniformLocation r gr b (F32.of_Z 1);
    DrawArrays TRIANGLES 0 6 ].

(** The rectangle parameters and the colour channels of the first [n]
    iterations. *)
Fixpoint rectangles (n : nat) (g : G) : list (Z * Z * Z * Z) :=
  match n with
  | O => []
  | S k => rectParams g :: rectangles k (afterColor g)
  end.

Fixpoint palette (n : nat) (g : G) : list (float32 * float32 * float32) :=
  match n with
  | O => []
  | S k => colorParams g :: palette k (afterColor g)
  end.

Fixpoint loopEvents (n : nat) (colorUniformLocation : jsValue) (g : G) : list Event :=
  match n with
  | O => []
  | S k => iterationEvents colorUniformLocation g
           ++ loopEvents k colorUniformLocation (afterColor g)
  end.

End Samples.


(** The handles and locations [main] holds once set-up is done. *)
Definition shaderHandle (gl : Host) (shaderType : GLenum) : jsValue :=
  if compileStatus gl (JSObject (newShader gl shaderType))
  then JSObject (newShader gl shaderType)
  else JSUndefined.

Definition programHandle (gl : Host) : jsValue :=
  if linkStatus gl (JSObject (newProgram gl))
  then JSObject (newProgram gl)
  else JSUndefined.

Definition positionLocation (gl : Host) : Z :=
  attribLocation gl (programHandle gl) "a_position".
Definition resolutionLocation (gl : Host) : jsValue :=
  uniformLocation gl (programHandle gl) "u_resolution".
Definition colorLocation (gl : Host) : jsValue :=
  uniformLocation gl (programHandle gl) "u_color".
Definition positionBuffer (gl : Host) : jsValue := JSObject (newBuffer gl).

(** The calls of [createShader], [createProgram] and of the set-up part of
    [main], as lists. *)
Definition createShaderEvents (gl : Host) (shaderType : GLenum) (source : string)
  : list Event :=
  let shader := JSObject (newShader gl shaderType) in
  [ CreateShader shaderType;
    ShaderSource shader source;
    CompileShader shader;
    GetShaderParameter shader COMPILE_STATUS ]
  ++ (if compileStatus gl shader then []
      else [ GetShaderInfoLog shader;
             Println (shaderInfoLog gl shader);
             DeleteShader shader ]).

Definition createProgramEvents (gl : Host) (vertexShader fragmentShader : jsValue)
  : list Event :=
  let program := JSObject (newProgram gl) in
  [ CreateProgram;
    AttachShader program vertexShader;
    AttachShader program fragmentShader;
    LinkProgram program;
    GetProgramParameterb program LINK_STATUS ]
  ++ (if linkStatus gl program then []
      else [ GetProgramInfoLog program;
             Println (programInfoLog gl program);
             DeleteProgram program ]).

Definition bindingEvents (gl : Host) (width height : Z) : list Event :=
  [ GetAttribLocation (programHandle gl) "a_position";
    GetUniformLocation (programHandle gl) "u_resolution";
    GetUniformLocation (programHandle gl) "u_color";
    CreateArrayBuffer;
    BindBuffer ARRAY_BUFFER (positionBuffer gl);
    Viewport 0 0 width height;
    ClearColor (F32.of_Z 0) (F32.of_Z 0) (F32.of_Z 0) (F32.of_Z 0);
    Clear COLOR_BUFFER_BIT;
    UseProgram (programHandle gl);
    EnableVertexAttribArray (positionLocation gl);
    BindBuffer ARRAY_BUFFER (positionBuffer gl);
    VertexAttribPointer (positionLocation gl) 2 FLOAT false 0 0 ].

Definition setupEvents (gl : Host) (width height : Z) : list Event :=
  createShaderEvents gl VERTEX_SHADER vertCode
  ++ createShaderEvents gl FRAGMENT_SHADER fragCode
  ++ createProgramEvents gl (shaderHandle gl VERTEX_SHADER)
                            (shaderHandle gl FRAGMENT_SHADER)
  ++ bindingEvents gl width height.

(** The context-creation attributes [main] passes. *)
Definition attrsOf (host : Host) : ContextAttributes :=
  setAlpha false (DefaultAttributes host).

(** The calls of [main] up to and including context creation. *)
Definition preamble (host : Host) : list Event :=
  [ GetElementById "mycanvas";
    SetAttribute "width" (clientWidth host);
    SetAttribute "height" (clientHeight host);
    NewContext (attrsOf host) ].

(** The calls of [main] before it sets the resolution, and that call. *)
Definition beforeResolution (host : Host) : list Event :=
  preamble host ++ setupEvents host (clientWidth host) (clientHeight host).

Definition setResolution (host : Host) : Event :=
  Uniform2f (resolutionLocation host) (F32.of_Z (clientWidth host))
            (F32.of_Z (clientHeight host)).

(** The calls of a run of [main] in which context creation succeeds, from
    the state [g] of the random source. *)
Definition mainEvents {G} {rnd : Rand G} (host : Host) (g : G) : list Event :=
  beforeResolution host ++ [setResolution host] ++ loopEvents 50 (colorLocation host) g.

(** ** Predicates on contexts and samples *)

(** [st'] differs from [st] at most in the data store of the buffer bound
    to [ARRAY_BUFFER], in the value of the uniform at [loc], and in the
    record of executed draws. *)
Definition sameExcept (loc : jsValue) (st st' : GLState) : Prop :=
  arrayBufferBinding st' = arrayBufferBinding st
  /\ currentProgram st' = currentProgram st
  /\ viewport st' = viewport st
  /\ clearColor st' = clearColor st
  /\ enabledAttribs st' = enabledAttribs st
  /\ attribPointers st' = attribPointers st
  /\ (forall l : positive, JSObject l <> loc -> uniforms st' !! l = uniforms st !! l)
  /\ (forall b : positive,
         JSObject b <> arrayBufferBinding st -> buffers st' !! b = buffers st !! b).


(** The three colour channels are at least 0 and below 1. *)
Definition inUnit (c : float32 * float32 * float32) : Prop :=
  let '(r, gr, b) := c in
  F32.in_range F32.zero F32.one r
  /\ F32.in_range F32.zero F32.one gr
  /\ F32.in_range F32.zero F32.one b.

(** ** Checking a property of every integer below a bound *)

Fixpoint below (n : nat) (p : Z -> bool) : bool :=
  match n with
  | O => true
  | S k => p (Z.of_nat k) && below k p
  end.

(** ** A scripted random source and three browsers

    The state of the scripted source is the list of raw values still to be
    handed out (0 once the list is exhausted); [Intn n] reduces the next one
    modulo [n], [Float32] turns the next one into a multiple of 1/256
    below 1. *)

Module Scripted.

Definition pop (g : list Z) : Z * list Z :=
  match g with
  | [] => (0, [])
  | r :: g' => (r, g')
  end.

Definition intn (n : Z) (g : list Z) : Z * list Z :=
  (fst (pop g) mod n, snd (pop g)).

Definition fraction (r : Z) : float32 :=
  F32.div (F32.of_Z (r mod 256)) (F32.of_Z 256).

Definition float32_ (g : list Z) : float32 * list Z :=
  (fraction (fst (pop g)), snd (pop g)).

(** A browser in which everything succeeds, on a 300 by 150 canvas. *)
Definition host : Host := {|
  clientWidth := 300;
  clientHeight := 150;
  DefaultAttributes :=
    {| Alpha := true; Depth := true; Stencil := false; Antialias := true;
       PremultipliedAlpha := true; PreserveDrawingBuffer := false |};
  contextError := fun _ => None;
  newShader := fun t => match t with VERTEX_SHADER => 1 | _ => 2 end%positive;
  compileStatus := fun _ => true;
  shaderInfoLog := fun _ => EmptyString;
  newProgram := 3%positive;
  linkStatus := fun _ => true;
  programInfoLog := fun _ => EmptyString;
  attribLocation := fun _ _ => 0;
  uniformLocation := fun _ name =>
    if String.eqb name "u_resolution" then JSObject 4 else JSObject 5;
  newBuffer := 6%positive
|}.

(** The same browser without WebGL. *)
Definition host_no_webgl : Host := {|
  clientWidth := 300;
  clientHeight := 150;
  DefaultAttributes := DefaultAttributes host;
  contextError := fun _ => Some "no webgl"%string;
  newShader := newShader host;
  compileStatus := compileStatus host;
  shaderInfoLog := shaderInfoLog host;
  newProgram := newProgram host;
  linkStatus := linkStatus host;
  programInfoLog := programInfoLog host;
  attribLocation := attribLocation host;
  uniformLocation := uniformLocation host;
  newBuffer := newBuffer host
|}.

(** The same browser with a GLSL compiler that rejects every shader. *)
Definition host_bad_shaders : Host := {|
  clientWidth := 300;
  clientHeight := 150;
  DefaultAttributes := DefaultAttributes host;
  contextError := contextError host;
  newShader := newShader host;
  compileStatus := fun _ => false;
  shaderInfoLog := fun _ => "ERROR: 0:1: syntax error"%string;
  newProgram := newProgram host;
  linkStatus := fun _ => false;
  programInfoLog := fun _ => "link failed"%string;
  attribLocation := fun _ _ => -1;
  uniformLocation := fun _ _ => JSNull;
  newBuffer := newBuffer host
|}.

End Scripted.

(** An example context: buffer 6 is bound and holds three stale floats
    uploaded with another hint. *)
Definition staleContext : GLState := {|
  arrayBufferBinding := JSObject 6;
  buffers := {[ 6%positive := ([F32.of_Z 1; F32.of_Z 2; F32.of_Z 3], DYNAMIC_DRAW) ]};
  uniforms := ∅;
  currentProgram := JSObject 3;
  viewport := (0, 0, 300, 150);
  clearColor := (F32.of_Z 0, F32.of_Z 0, F32.of_Z 0, F32.of_Z 0);
  enabledAttribs := [0];
  attribPointers := [];
  draws := []
|}.

(** ** Usage hints

    What the WebGL specification says a usage hint announces: how often the
    application specifies the contents of the data store, and how often the
    contents are used as the source of drawing.  [STREAM_DRAW]: specified
    once, used at most a few times; [STATIC_DRAW]: specified once, used many
    times; [DYNAMIC_DRAW]: respecified repeatedly, used many times. *)

Inductive Frequency : Type := Once | AFewTimes | ManyTimes | Repeatedly.

Record UsagePattern : Type := { specified : Frequency; used : Frequency }.

Definition usagePattern (usage : GLenum) : option UsagePattern :=
  match usage with
  | STREAM_DRAW => Some {| specified := Once; used := AFewTimes |}
  | STATIC_DRAW => Some {| specified := Once; used := ManyTimes |}
  | DYNAMIC_DRAW => Some {| specified := Repeatedly; used := ManyTimes |}
  | _ => None
  end.

(** The usage hints of the [BufferData] calls, in order. *)
Fixpoint hints (t : list Event) : list GLenum :=
  match t with
  | [] => []
  | BufferData _ _ usage :: t' => usage :: hints t'
  | _ :: t' => hints t'
  end.

(** ** Further readings of floats, events and traces *)

(** The integer a binary32 value stands for, when it is one. *)
Definition integerOf (f : float32) : option Z :=
  match f with
  | S754_zero _ => Some 0
  | S754_finite s m e =>
      let v := if s then Z.neg m else Z.pos m in
      if 0 <=? e then Some (v * 2 ^ e)
      else if Z.pos m mod 2 ^ (- e) =? 0 then Some (v / 2 ^ (- e))
      else None
  | _ => None
  end.

(** The messages of the [println] calls, in order. *)
Fixpoint printed (t : list Event) : list string :=
  match t with
  | [] => []
  | Println msg :: t' => msg :: printed t'
  | _ :: t' => printed t'
  end.

(** The shader object and the program object a call is given. *)
Definition shaderArg (e : Event) : option jsValue :=
  match e with
  | ShaderSource s _ | CompileShader s | GetShaderParameter s _
  | GetShaderInfoLog s | DeleteShader s | AttachShader _ s => Some s
  | _ => None
  end.

Definition programArg (e : Event) : option jsValue :=
  match e with
  | AttachShader p _ | LinkProgram p | GetProgramParameterb p _
  | GetProgramInfoLog p | DeleteProgram p | GetAttribLocation p _
  | GetUniformLocation p _ | UseProgram p => Some p
  | _ => None
  end.

Definition isArg (h : jsValue) (a : option jsValue) : bool :=
  match a with
  | Some h' => jsValue_eqb h h'
  | None => false
  end.

(** No call is given a shader or program object that an earlier call of the
    trace deleted. *)
Fixpoint noUseAfterDelete (t : list Event) : bool :=
  match t with
  | [] => true
  | e :: t' =>
      match e with
      | DeleteShader s => forallb (fun e' => negb (isArg s (shaderArg e'))) t'
      | DeleteProgram p => forallb (fun e' => negb (isArg p (programArg e'))) t'
      | _ => true
      end && noUseAfterDelete t'
  end.

(** What each draw call of a trace reads, in the context the calls before
    it produce from [st]: the data store and hint of the buffer bound to
    [ARRAY_BUFFER], and the value of the uniform at [loc]. *)
Fixpoint drawInputs (loc : positive) (st : GLState) (t : list Event)
  : list (option (list float32 * GLenum) * option (list float32)) :=
  match t with
  | [] => []
  | e :: t' =>
      let rest := drawInputs loc (step st e) t' in
      match e with
      | DrawArrays _ _ _ =>
          (match arrayBufferBinding st with
           | JSObject b => buffers st !! b
           | _ => None
           end,
           uniforms st !! loc) :: rest
      | _ => rest
      end
  end.

(** The rectangle and the colour a draw call reads when it follows the
    upload of [p] and the colour call with channels [c]. *)
Definition drawn (pc : (Z * Z * Z * Z) * (float32 * float32 * float32))
  : option (list float32 * GLenum) * option (list float32) :=
  (Some (rectData (fst pc), STATIC_DRAW),
   Some [fst (fst (snd pc)); snd (fst (snd pc)); snd (snd pc); F32.of_Z 1]).


(** A call that is given neither a shader nor a program object. *)
Definition handleFree (e : Event) : bool :=
  match shaderArg e, programArg e with
  | None, None => true
  | _, _ => false
  end.

(** The two components the shader computes, each from one coordinate and
    one side of the resolution. *)
Definition clipX (px w : float32) : float32 :=
  F32.mul (F32.sub (F32.mul (F32.div px w) (F32.of_Z 2)) (F32.of_Z 1)) (F32.of_Z 1).

Definition clipY (py h : float32) : float32 :=
  F32.mul (F32.sub (F32.mul (F32.div py h) (F32.of_Z 2)) (F32.of_Z 1)) (F32.of_Z (-1)).

(** The rational number a finite binary32 value stands for. *)
Definition rationalOf (f : float32) : option Q :=
  match f with
  | S754_zero _ => Some 0%Q
  | S754_finite s m e =>
      let v := if s then Z.neg m else Z.pos m in
      Some (if 0 <=? e then inject_Z (v * 2 ^ e)
            else Qmake v (Z.to_pos (2 ^ (- e))))
  | _ => None
  end.

(** [c] lies between -1 and 1, the sides of the clip-space square. *)
Definition inClip (c : float32) : bool :=
  F32.leb (F32.of_Z (-1)) c && F32.leb c (F32.of_Z 1).

Definition Qlt_bool (a b : Q) : bool := negb (Qle_bool b a).

(** The value 2p/w - 1 the shader's x stands for in exact arithmetic, its
    mirror image 1 - 2p/w for y, and the rounding allowance
    (4p/w + 2) / 2^24. *)
Definition exactX (p w : Z) : Q := Qmake (2 * p - w) (Z.to_pos w).
Definition exactY (p w : Z) : Q := Qmake (w - 2 * p) (Z.to_pos w).
Definition allowance (p w : Z) : Q := Qmake (4 * p + 2 * w) (Z.to_pos (w * 2 ^ 24)).

(** The constants of the shader, and the two components computed together:
    they share everything but the last multiplication. *)
Definition two32 : float32 := S754_finite false 8388608 (-22).
Definition one32 : float32 := S754_finite false 8388608 (-23).
Definition minusOne32 : float32 := S754_finite true 8388608 (-23).

Definition clipPair (px w : float32) : float32 * float32 :=
  let t := F32.sub (F32.mul (F32.div px w) two32) one32 in
  (F32.mul t one32, F32.mul t minusOne32).

Definition inClipPair (c : float32 * float32) : bool * bool :=
  (F32.leb minusOne32 (fst c) && F32.leb (fst c) one32,
   F32.leb minusOne32 (snd c) && F32.leb (snd c) one32).

(** For the [n] integer coordinates from [p] on and the side [w] (in
    binary32, [fw]): the two shader components are finite, within the
    allowance of the exact values, inside the clip square exactly when
    [p <= w], and beyond the components [prev] of the coordinate before
    (x larger, y smaller). *)
Fixpoint gridRow (n : nat) (p w : Z) (fw : float32) (prev : option (Q * Q)) : bool :=
  match n with
  | O => true
  | S m =>
      let c := clipPair (F32.of_Z p) fw in
      match rationalOf (fst c), rationalOf (snd c) with
      | Some qx, Some qy =>
          Qle_bool (Qabs (qx - exactX p w)) (allowance p w)
          && Qle_bool (Qabs (qy - exactY p w)) (allowance p w)
          && Bool.eqb (fst (inClipPair c)) (p <=? w)
          && Bool.eqb (snd (inClipPair c)) (p <=? w)
          && match prev with
             | Some (ax, ay) => Qlt_bool ax qx && Qlt_bool qy ay
             | None => true
             end
          && gridRow m (p + 1) w fw (Some (qx, qy))
      | _, _ => false
      end
  end.

(** The facts [gridRow] checks, as propositions. *)
Definition pointOK (p w : Z) : Prop :=
  exists qx qy : Q,
    rationalOf (clipX (F32.of_Z p) (F32.of_Z w)) = Some qx
    /\ rationalOf (clipY (F32.of_Z p) (F32.of_Z w)) = Some qy
    /\ (Qabs (qx - exactX p w) <= allowance p w)%Q
    /\ (Qabs (qy - exactY p w) <= allowance p w)%Q
    /\ inClip (clipX (F32.of_Z p) (F32.of_Z w)) = (p <=? w)
    /\ inClip (clipY (F32.of_Z p) (F32.of_Z w)) = (p <=? w).

Definition rises (p p' w : Z) : Prop :=
  exists a b c d : Q,
    rationalOf (clipX (F32.of_Z p) (F32.of_Z w)) = Some a
    /\ rationalOf (clipX (F32.of_Z p') (F32.of_Z w)) = Some b
    /\ (a < b)%Q
    /\ rationalOf (clipY (F32.of_Z p) (F32.of_Z w)) = Some c
    /\ rationalOf (clipY (F32.of_Z p') (F32.of_Z w)) = Some d
    /\ (d < c)%Q.

(** [p] holds of the [n] integers from [k] on. *)
Fixpoint countUp (n : nat) (k : Z) (p : Z -> bool) : bool :=
  match n with
  | O => true
  | S m => p k && countUp m (k + 1) p
  end.

(** * Lemmas *)

Lemma below_spec (n : nat) (p : Z -> bool) :
  below n p = true -> forall k, 0 <= k < Z.of_nat n -> p k = true.
Proof.
  induction n as [|n IH]; simpl; intros Hb k Hk; [lia|].
  apply andb_prop in Hb as [Hn Hrest].
  destruct (Z.eq_dec k (Z.of_nat n)) as [->|Hne]; [exact Hn|].
  apply IH; [exact Hrest | lia].
Qed.

Lemma F32_same_eq (a b : float32) : F32.same a b = true -> a = b.
Proof.
  destruct a as [s|s| |s m e], b as [t|t| |t n f]; simpl; try discriminate.
  - intros H%Bool.eqb_prop; congruence.
  - intros H%Bool.eqb_prop; congruence.
  - reflexivity.
  - intros H. apply andb_prop in H as [H He]. apply andb_prop in H as [Hs Hm].
    apply Bool.eqb_prop in Hs. apply Pos.eqb_eq in Hm. apply Z.eqb_eq in He.
    congruence.
Qed.

Lemma scripted_intn_range (n : Z) (g : list Z) :
  0 < n -> 0 <= fst (Scripted.intn n g) < n.
Proof. intros Hn. unfold Scripted.intn; simpl. apply Z.mod_pos_bound; exact Hn. Qed.

Lemma scripted_fraction_range (r : Z) :
  F32.in_range F32.zero F32.one (Scripted.fraction r).
Proof.
  assert (Hall : below 256 (fun k =>
            F32.leb F32.zero (F32.div (F32.of_Z k) (F32.of_Z 256))
            && F32.ltb (F32.div (F32.of_Z k) (F32.of_Z 256)) F32.one) = true)
    by (vm_compute; reflexivity).
  pose proof (below_spec _ _ Hall (r mod 256)) as Hk.
  assert (Hr : 0 <= r mod 256 < Z.of_nat 256)
    by (change (Z.of_nat 256) with 256; apply Z.mod_pos_bound; lia).
  specialize (Hk Hr). apply andb_prop in Hk. exact Hk.
Qed.

(** The scripted source is a random source. *)
#[global] Instance scripted : Rand (list Z) := {|
  Intn := Scripted.intn;
  Float32 := Scripted.float32_;
  Intn_range := scripted_intn_range;
  Float32_range := fun g => scripted_fraction_range (fst (Scripted.pop g))
|}.


(** ** Monad and loop lemmas *)

Section Lemmas.

Context {G : Type} {rnd : Rand G}.

Lemma loopBody_run (gl : Host) (loc : jsValue) (g : G) :
  loopBody gl loc g = (tt, afterColor g, iterationEvents loc g).
Proof. reflexivity. Qed.

Lemma for_run (n : nat) (gl : Host) (loc : jsValue) (g : G) :
  for_ n (loopBody gl loc) g = (tt, stateAt n g, loopEvents n loc g).
Proof.
  revert g; induction n as [|n IH]; intros g; [reflexivity|].
  simpl for_. unfold bind. rewrite loopBody_run, IH. reflexivity.
Qed.

End Lemmas.

Section RunLemmas.

Context {G : Type} {rnd : Rand G}.

Lemma createShader_run (gl : Host) (shaderType : GLenum) (source : string) (g : G) :
  createShader gl shaderType source g
  = (shaderHandle gl shaderType, g, createShaderEvents gl shaderType source).
Proof.
  unfold createShader, shaderHandle, createShaderEvents, bind, ask, call, ret.
  cbv beta iota zeta.
  destruct (compileStatus gl (JSObject (newShader gl shaderType))); reflexivity.
Qed.

Lemma createProgram_run (gl : Host) (vs fs : jsValue) (g : G) :
  createProgram gl vs fs g = (programHandle gl, g, createProgramEvents gl vs fs).
Proof.
  unfold createProgram, programHandle, createProgramEvents, bind, ask, call, ret.
  cbv beta iota zeta.
  destruct (linkStatus gl (JSObject (newProgram gl))); reflexivity.
Qed.

Lemma main_run_ok (host : Host) (g : G) :
  contextError host (attrsOf host) = None ->
  main host g = (tt, stateAt 50 g, mainEvents host g).
Proof.
  intros Hok. unfold main, bind, ask, call, ret.
  cbv beta iota zeta. fold (attrsOf host). rewrite Hok.
  rewrite createShader_run; cbv beta iota zeta.
  rewrite createShader_run; cbv beta iota zeta.
  rewrite createProgram_run; cbv beta iota zeta.
  rewrite for_run; cbv beta iota zeta.
  unfold mainEvents, beforeResolution, preamble, setupEvents, bindingEvents.
  rewrite <- !app_assoc. reflexivity.
Qed.

Lemma main_run_error (host : Host) (msg : string) (g : G) :
  contextError host (attrsOf host) = Some msg ->
  main host g = (tt, g, preamble host ++ [Alert (String.append "Error: " msg)]).
Proof.
  intros Herr. unfold main, bind, ask, call.
  cbv beta iota zeta. fold (attrsOf host). rewrite Herr. reflexivity.
Qed.

End RunLemmas.

(** ** Helper facts about traces *)

Lemma of_Z_add_exact (a b : Z) :
  0 <= a < 300 -> 0 <= b < 300 ->
  F32.add (F32.of_Z a) (F32.of_Z b) = F32.of_Z (a + b).
Proof.
  intros Ha Hb.
  assert (Hall : below 300 (fun a => below 300 (fun b =>
            F32.same (F32.add (F32.of_Z a) (F32.of_Z b)) (F32.of_Z (a + b)))) = true)
    by (vm_compute; reflexivity).
  assert (Ha' : 0 <= a < Z.of_nat 300) by lia.
  assert (Hb' : 0 <= b < Z.of_nat 300) by lia.
  pose proof (below_spec _ _ Hall a Ha') as Hrow; cbv beta in Hrow.
  apply F32_same_eq. exact (below_spec _ _ Hrow b Hb').
Qed.

Section TraceFacts.

Context {G : Type} {rnd : Rand G}.

Lemma draws_of_loop (n : nat) (loc : jsValue) (g : G) :
  List.filter isDraw (loopEvents n loc g) = repeat (DrawArrays TRIANGLES 0 6) n.
Proof.
  revert g; induction n as [|n IH]; intros g; [reflexivity|].
  simpl loopEvents. unfold iterationEvents.
  destruct (colorParams g) as [[r gr] b]. simpl. rewrite IH. reflexivity.
Qed.

Lemma draws_of_createShader (gl : Host) (ty : GLenum) (src : string) :
  List.filter isDraw (createShaderEvents gl ty src) = [].
Proof.
  unfold createShaderEvents. cbv zeta.
  destruct (compileStatus gl _); reflexivity.
Qed.

Lemma draws_of_createProgram (gl : Host) (vs fs : jsValue) :
  List.filter isDraw (createProgramEvents gl vs fs) = [].
Proof.
  unfold createProgramEvents. cbv zeta.
  destruct (linkStatus gl _); reflexivity.
Qed.

Lemma draws_of_setup (gl : Host) (w h : Z) :
  List.filter isDraw (setupEvents gl w h) = [].
Proof.
  unfold setupEvents.
  rewrite !List.filter_app, !draws_of_createShader, draws_of_createProgram.
  reflexivity.
Qed.

Lemma trace_main_ok (host : Host) (g : G) :
  contextError host (attrsOf host) = None ->
  trace (main host) g = mainEvents host g.
Proof. intros Hok. unfold trace. rewrite (main_run_ok host g Hok). reflexivity. Qed.

Lemma draws_of_main (host : Host) (g : G) :
  List.filter isDraw (mainEvents host g) = repeat (DrawArrays TRIANGLES 0 6) 50.
Proof.
  unfold mainEvents, beforeResolution.
  rewrite !List.filter_app, draws_of_setup, draws_of_loop. reflexivity.
Qed.

End TraceFacts.

Lemma uploads_app (t1 t2 : list Event) :
  uploads (t1 ++ t2) = uploads t1 ++ uploads t2.
Proof.
  induction t1 as [|e t1 IH]; [reflexivity|].
  destruct e; simpl; rewrite ?IH; reflexivity.
Qed.

Lemma colors_app (t1 t2 : list Event) :
  colors (t1 ++ t2) = colors t1 ++ colors t2.
Proof.
  induction t1 as [|e t1 IH]; [reflexivity|].
  destruct e; simpl; rewrite ?IH; reflexivity.
Qed.

Ltac by_status gl :=
  unfold setupEvents, createShaderEvents, createProgramEvents, bindingEvents;
  cbv zeta;
  destruct (compileStatus gl (JSObject (newShader gl VERTEX_SHADER)));
  destruct (compileStatus gl (JSObject (newShader gl FRAGMENT_SHADER)));
  destruct (linkStatus gl (JSObject (newProgram gl)));
  reflexivity.

Lemma uploads_setup (gl : Host) (w h : Z) : uploads (setupEvents gl w h) = [].
Proof. by_status gl. Qed.

Lemma colors_setup (gl : Host) (w h : Z) : colors (setupEvents gl w h) = [].
Proof. by_status gl. Qed.

Lemma uniform2f_setup (gl : Host) (w h : Z) :
  List.filter isUniform2f (setupEvents gl w h) = [].
Proof. by_status gl. Qed.

Section LoopFacts.

Context {G : Type} {rnd : Rand G}.

Lemma uploads_loop (n : nat) (loc : jsValue) (g : G) :
  uploads (loopEvents n loc g) = map rectData (rectangles n g).
Proof.
  revert g; induction n as [|n IH]; intros g; [reflexivity|].
  simpl loopEvents. unfold iterationEvents.
  destruct (colorParams g) as [[r gr] b].
  simpl. rewrite IH. reflexivity.
Qed.

Lemma colors_loop (n : nat) (loc : jsValue) (g : G) :
  colors (loopEvents n loc g)
  = map (fun c : float32 * float32 * float32 =>
           (loc, (fst (fst c), snd (fst c), snd c, F32.of_Z 1)))
        (palette n g).
Proof.
  revert g; induction n as [|n IH]; intros g; [reflexivity|].
  cbn [loopEvents palette map]. unfold iterationEvents.
  destruct (colorParams g) as [[r gr] b].
  cbn [app colors fst snd]. rewrite IH. reflexivity.
Qed.

Lemma uniform2f_loop (n : nat) (loc : jsValue) (g : G) :
  List.filter isUniform2f (loopEvents n loc g) = [].
Proof.
  revert g; induction n as [|n IH]; intros g; [reflexivity|].
  simpl loopEvents. unfold iterationEvents.
  destruct (colorParams g) as [[r gr] b].
  simpl. apply IH.
Qed.

Lemma uploads_main (host : Host) (g : G) :
  uploads (mainEvents host g) = map rectData (rectangles 50 g).
Proof.
  unfold mainEvents, beforeResolution.
  rewrite !uploads_app, uploads_setup, uploads_loop. reflexivity.
Qed.

Lemma colors_main (host : Host) (g : G) :
  colors (mainEvents host g)
  = map (fun c : float32 * float32 * float32 =>
           (colorLocation host, (fst (fst c), snd (fst c), snd c, F32.of_Z 1)))
        (palette 50 g).
Proof.
  unfold mainEvents, beforeResolution.
  rewrite !colors_app, colors_setup, colors_loop. reflexivity.
Qed.

Lemma rectangles_length (n : nat) (g : G) : length (rectangles n g) = n.
Proof. revert g; induction n as [|n IH]; intros g; simpl; [|rewrite IH]; reflexivity. Qed.

Lemma palette_length (n : nat) (g : G) : length (palette n g) = n.
Proof. revert g; induction n as [|n IH]; intros g; simpl; [|rewrite IH]; reflexivity. Qed.



Lemma colorParams_range (g : G) : inUnit (colorParams g).
Proof.
  unfold inUnit, colorParams; cbv zeta.
  repeat split; apply Float32_range.
Qed.

Lemma palette_range (n : nat) (g : G) : Forall inUnit (palette n g).
Proof.
  revert g; induction n as [|n IH]; intros g; simpl; constructor.
  - apply colorParams_range.
  - apply IH.
Qed.

End LoopFacts.

(** ** The context across the loop *)

Lemma steps_app (st : GLState) (t1 t2 : list Event) :
  steps st (t1 ++ t2) = steps (steps st t1) t2.
Proof. unfold steps. apply fold_left_app. Qed.

Lemma sameExcept_refl (loc : jsValue) (st : GLState) : sameExcept loc st st.
Proof. unfold sameExcept. repeat split. Qed.

Lemma sameExcept_trans (loc : jsValue) (st1 st2 st3 : GLState) :
  sameExcept loc st1 st2 -> sameExcept loc st2 st3 -> sameExcept loc st1 st3.
Proof.
  intros (Ha & Hp & Hv & Hc & He & Hq & Hu & Hb) (Ha' & Hp' & Hv' & Hc' & He' & Hq' & Hu' & Hb').
  unfold sameExcept. repeat split; try congruence.
  - intros l Hl. rewrite Hu', Hu by exact Hl. reflexivity.
  - intros b Hne. rewrite Hb' by (rewrite Ha; exact Hne). apply Hb; exact Hne.
Qed.

Lemma sameExcept_upload (loc : jsValue) (data : TypedArray) (usage : GLenum)
      (st : GLState) :
  sameExcept loc st (step st (BufferData ARRAY_BUFFER data usage)).
Proof.
  cbn [step]. unfold setBufferData.
  destruct (arrayBufferBinding st) as [| |b] eqn:Hbound;
    try apply sameExcept_refl.
  unfold sameExcept; cbn. rewrite Hbound.
  repeat (split; [reflexivity|]).
  intros b' Hne. apply lookup_insert_ne. congruence.
Qed.

Lemma sameExcept_color (loc : jsValue) (v : list float32) (st : GLState) :
  sameExcept loc st (setUniform loc v st).
Proof.
  unfold setUniform. destruct loc as [| |l]; try apply sameExcept_refl.
  unfold sameExcept; cbn.
  repeat (split; [reflexivity|]).
  split; [|reflexivity].
  intros l' Hne. apply lookup_insert_ne. congruence.
Qed.

Lemma sameExcept_draw (loc : jsValue) (mode : GLenum) (first count : Z)
      (st : GLState) :
  sameExcept loc st (step st (DrawArrays mode first count)).
Proof. unfold sameExcept; cbn. repeat split. Qed.

Section Frame.

Context {G : Type} {rnd : Rand G}.

Lemma sameExcept_iteration (loc : jsValue) (g : G) (st : GLState) :
  sameExcept loc st (steps st (iterationEvents loc g)).
Proof.
  unfold iterationEvents. destruct (colorParams g) as [[r gr] b].
  unfold steps. cbn [fold_left].
  eapply sameExcept_trans; [apply sameExcept_upload|].
  eapply sameExcept_trans; [|apply sameExcept_draw].
  cbn [step]. apply sameExcept_color.
Qed.

Lemma sameExcept_loop (n : nat) (loc : jsValue) (g : G) (st : GLState) :
  sameExcept loc st (steps st (loopEvents n loc g)).
Proof.
  revert g st; induction n as [|n IH]; intros g st.
  - apply sameExcept_refl.
  - cbn [loopEvents]. rewrite steps_app.
    eapply sameExcept_trans; [apply sameExcept_iteration | apply IH].
Qed.

Lemma loopEvents_split (n m : nat) (loc : jsValue) (g : G) :
  loopEvents (n + m) loc g = loopEvents n loc g ++ loopEvents m loc (stateAt n g).
Proof.
  revert g; induction n as [|n IH]; intros g; [reflexivity|].
  cbn [Nat.add loopEvents stateAt]. rewrite IH, <- app_assoc. reflexivity.
Qed.

End Frame.

(** In a run of [main] the buffer bound when the loop uploads is the
    position buffer. *)
Lemma main_uploads_to_position_buffer (host : Host) (st : GLState) :
  arrayBufferBinding (steps st (beforeResolution host ++ [setResolution host]))
  = positionBuffer host.
Proof.
  rewrite steps_app.
  transitivity (arrayBufferBinding (steps st (beforeResolution host))).
  - unfold steps at 1. cbn [fold_left]. unfold setResolution, step, setUniform.
    destruct (resolutionLocation host); reflexivity.
  - unfold beforeResolution, preamble.
    unfold setupEvents, createShaderEvents, createProgramEvents, bindingEvents.
    cbv zeta.
    destruct (compileStatus host (JSObject (newShader host VERTEX_SHADER)));
      destruct (compileStatus host (JSObject (newShader host FRAGMENT_SHADER)));
      destruct (linkStatus host (JSObject (newProgram host)));
      reflexivity.
Qed.




(** ** The vertex shader on the pixel grid *)

Lemma vert_main_binary32 (px py w h : float32) :
  Shader.vert_main (px, py) (w, h) = (clipX px w, clipY py h, F32.of_Z 0, F32.of_Z 1).
Proof. reflexivity. Qed.


Lemma Qlt_bool_lt (a b : Q) : Qlt_bool a b = true -> (a < b)%Q.
Proof.
  unfold Qlt_bool. intros H. apply negb_true_iff in H.
  apply Qnot_le_lt. intros Hle. apply Qle_bool_iff in Hle. congruence.
Qed.

Lemma countUp_spec (n : nat) (k : Z) (p : Z -> bool) :
  countUp n k p = true -> forall j, k <= j < k + Z.of_nat n -> p j = true.
Proof.
  revert k; induction n as [|n IH]; intros k Hc j Hj; [lia|].
  cbn [countUp] in Hc. apply andb_prop in Hc as [Hk Hrest].
  destruct (Z.eq_dec j k) as [->|Hne]; [exact Hk|].
  apply (IH (k + 1) Hrest). lia.
Qed.

Lemma clipPair_eq (px w : float32) : clipPair px w = (clipX px w, clipY px w).
Proof. reflexivity. Qed.

Lemma inClipPair_eq (cx cy : float32) : inClipPair (cx, cy) = (inClip cx, inClip cy).
Proof. reflexivity. Qed.

Lemma gridRow_spec (n : nat) (p w : Z) (prev : option (Q * Q)) :
  gridRow n p w (F32.of_Z w) prev = true ->
  (forall ax ay : Q,
      prev = Some (ax, ay) ->
      rationalOf (clipX (F32.of_Z (p - 1)) (F32.of_Z w)) = Some ax
      /\ rationalOf (clipY (F32.of_Z (p - 1)) (F32.of_Z w)) = Some ay) ->
  forall j : Z,
    p <= j < p + Z.of_nat n ->
    pointOK j w /\ (p < j \/ prev <> None -> rises (j - 1) j w).
Proof.
  revert p prev; induction n as [|n IH]; intros p prev Hrow Hprev j Hj; [lia|].
  cbn [gridRow] in Hrow. cbv zeta in Hrow.
  rewrite clipPair_eq, inClipPair_eq in Hrow. cbn [fst snd] in Hrow.
  destruct (rationalOf (clipX (F32.of_Z p) (F32.of_Z w))) as [qx|] eqn:Ex;
    [|discriminate].
  destruct (rationalOf (clipY (F32.of_Z p) (F32.of_Z w))) as [qy|] eqn:Ey;
    [|discriminate].
  apply andb_prop in Hrow as [Hrow Hrest].
  apply andb_prop in Hrow as [Hrow Hrise].
  apply andb_prop in Hrow as [Hrow Hcy].
  apply andb_prop in Hrow as [Hrow Hcx].
  apply andb_prop in Hrow as [Hnx Hny].
  destruct (Z.eq_dec j p) as [->|Hne].
  - split.
    + exists qx, qy. split; [exact Ex|]. split; [exact Ey|].
      split; [apply Qle_bool_iff; exact Hnx|].
      split; [apply Qle_bool_iff; exact Hny|].
      split; apply Bool.eqb_prop; assumption.
    + intros [Hlt | Hsome]; [lia|].
      destruct prev as [[ax ay]|]; [|congruence].
      destruct (Hprev ax ay eq_refl) as [Hax Hay].
      apply andb_prop in Hrise as [Hrx Hry].
      exists ax, qx, ay, qy.
      split; [exact Hax|]. split; [exact Ex|].
      split; [apply Qlt_bool_lt; exact Hrx|].
      split; [exact Hay|]. split; [exact Ey|].
      apply Qlt_bool_lt; exact Hry.
  - assert (Hj' : p + 1 <= j < p + 1 + Z.of_nat n) by lia.
    assert (Hprev' : forall ax ay : Q,
               Some (qx, qy) = Some (ax, ay) ->
               rationalOf (clipX (F32.of_Z (p + 1 - 1)) (F32.of_Z w)) = Some ax
               /\ rationalOf (clipY (F32.of_Z (p + 1 - 1)) (F32.of_Z w)) = Some ay).
    { intros ax ay Heq. injection Heq as <- <-.
      replace (p + 1 - 1) with p by lia. split; assumption. }
    destruct (IH (p + 1) (Some (qx, qy)) Hrest Hprev' j Hj') as [Hok Hr].
    split; [exact Hok|]. intros _. apply Hr. right. discriminate.
Qed.

(** Every coordinate from 0 to 598 against every side from 1 to 300. *)
Lemma grid_checked (w : Z) :
  1 <= w <= 300 ->
  forall j : Z, 0 <= j <= 598 -> pointOK j w /\ (0 < j -> rises (j - 1) j w).
Proof.
  intros Hw j Hj.
  assert (Hall : countUp 300 1 (fun w => gridRow 599 0 w (F32.of_Z w) None) = true)
    by (vm_compute; reflexivity).
  assert (Hw' : 1 <= w < 1 + Z.of_nat 300) by lia.
  pose proof (countUp_spec _ _ _ Hall w Hw') as Hrow. cbv beta in Hrow.
  assert (Hnone : forall ax ay : Q,
             @None (Q * Q) = Some (ax, ay) ->
             rationalOf (clipX (F32.of_Z (0 - 1)) (F32.of_Z w)) = Some ax
             /\ rationalOf (clipY (F32.of_Z (0 - 1)) (F32.of_Z w)) = Some ay)
    by (intros ax ay Heq; discriminate Heq).
  assert (Hj' : 0 <= j < 0 + Z.of_nat 599) by lia.
  destruct (gridRow_spec 599 0 w None Hrow Hnone j Hj') as [Hok Hr].
  split; [exact Hok|]. intros Hpos. apply Hr. left. exact Hpos.
Qed.

Lemma rises_trans (p q r w : Z) : rises p q w -> rises q r w -> rises p r w.
Proof.
  intros (a & b & c & d & Ha & Hb & Hlt & Hc & Hd & Hlt2)
         (a' & b' & c' & d' & Ha' & Hb' & Hlt' & Hc' & Hd' & Hlt2').
  rewrite Hb in Ha'. injection Ha' as <-.
  rewrite Hd in Hc'. injection Hc' as <-.
  exists a, b', c, d'.
  split; [exact Ha|]. split; [exact Hb'|].
  split; [exact (Qlt_trans _ _ _ Hlt Hlt')|].
  split; [exact Hc|]. split; [exact Hd'|].
  exact (Qlt_trans _ _ _ Hlt2' Hlt2).
Qed.

Lemma grid_rises (w p p' : Z) :
  1 <= w <= 300 -> 0 <= p -> p < p' -> p' <= 598 -> rises p p' w.
Proof.
  intros Hw Hp Hlt Hp'.
  assert (Hgen : forall k : nat, p + 1 + Z.of_nat k <= 598 ->
                                 rises p (p + 1 + Z.of_nat k) w).
  { induction k as [|k IH]; intros Hk.
    - replace (p + 1 + Z.of_nat 0) with (p + 1) by lia.
      destruct (grid_checked w Hw (p + 1)) as [_ Hr]; [lia|].
      replace (p + 1 - 1) with p in Hr by lia. apply Hr. lia.
    - apply (rises_trans p (p + 1 + Z.of_nat k)); [apply IH; lia|].
      destruct (grid_checked w Hw (p + 1 + Z.of_nat (S k))) as [_ Hr]; [lia|].
      replace (p + 1 + Z.of_nat (S k) - 1) with (p + 1 + Z.of_nat k) in Hr by lia.
      apply Hr. lia. }
  replace p' with (p + 1 + Z.of_nat (Z.to_nat (p' - p - 1))) by lia.
  apply Hgen. lia.
Qed.






Lemma grid_inClip (p w : Z) :
  1 <= w <= 300 -> 0 <= p <= 598 ->
  inClip (clipX (F32.of_Z p) (F32.of_Z w)) = (p <=? w)
  /\ inClip (clipY (F32.of_Z p) (F32.of_Z w)) = (p <=? w).
Proof.
  intros Hw Hp.
  destruct (grid_checked w Hw p Hp) as [(qx & qy & _ & _ & _ & _ & Hcx & Hcy) _].
  split; assumption.
Qed.

(** On the grid the components are strictly ordered as the coordinates, so
    equal components come from equal coordinates. *)
Lemma grid_order (w p p' : Z) :
  1 <= w <= 300 -> 0 <= p <= 598 -> 0 <= p' <= 598 ->
  exists a b c d : Q,
    rationalOf (clipX (F32.of_Z p) (F32.of_Z w)) = Some a
    /\ rationalOf (clipX (F32.of_Z p') (F32.of_Z w)) = Some b
    /\ rationalOf (clipY (F32.of_Z p) (F32.of_Z w)) = Some c
    /\ rationalOf (clipY (F32.of_Z p') (F32.of_Z w)) = Some d
    /\ (p < p' <-> (a < b)%Q) /\ (p < p' <-> (d < c)%Q).
Proof.
  intros Hw Hp Hp'.
  destruct (grid_checked w Hw p Hp) as [(a & c & Ha & Hc & _) _].
  destruct (grid_checked w Hw p' Hp') as [(b & d & Hb & Hd & _) _].
  exists a, b, c, d.
  split; [exact Ha|]. split; [exact Hb|]. split; [exact Hc|]. split; [exact Hd|].
  assert (Hup : p < p' -> (a < b)%Q /\ (d < c)%Q).
  { intros Hlt.
    destruct (grid_rises w p p' Hw) as (a' & b' & c' & d' & Ha' & Hb' & Hab & Hc' & Hd' & Hdc);
      [lia | lia | lia |].
    rewrite Ha in Ha'. rewrite Hb in Hb'. rewrite Hc in Hc'. rewrite Hd in Hd'.
    injection Ha' as <-. injection Hb' as <-. injection Hc' as <-. injection Hd' as <-.
    split; assumption. }
  assert (Hdown : p' < p -> (b < a)%Q /\ (c < d)%Q).
  { intros Hlt.
    destruct (grid_rises w p' p Hw) as (a' & b' & c' & d' & Ha' & Hb' & Hab & Hc' & Hd' & Hdc);
      [lia | lia | lia |].
    rewrite Hb in Ha'. rewrite Ha in Hb'. rewrite Hd in Hc'. rewrite Hc in Hd'.
    injection Ha' as <-. injection Hb' as <-. injection Hc' as <-. injection Hd' as <-.
    split; assumption. }
  assert (Hsame : p = p' -> (a == b)%Q /\ (c == d)%Q).
  { intros <-. rewrite Ha in Hb. rewrite Hc in Hd.
    injection Hb as <-. injection Hd as <-. split; reflexivity. }
  split; (split; [intros Hlt; apply Hup; exact Hlt|]); intros Hq.
  - destruct (Z.lt_trichotomy p p') as [Hlt | [Heq | Hgt]]; [exact Hlt | |].
    + destruct (Hsame Heq) as [Hab _]. rewrite Hab in Hq.
      exfalso; exact (Qlt_irrefl _ Hq).
    + destruct (Hdown Hgt) as [Hba _].
      exfalso; exact (Qlt_irrefl _ (Qlt_trans _ _ _ Hq Hba)).
  - destruct (Z.lt_trichotomy p p') as [Hlt | [Heq | Hgt]]; [exact Hlt | |].
    + destruct (Hsame Heq) as [_ Hcd]. rewrite Hcd in Hq.
      exfalso; exact (Qlt_irrefl _ Hq).
    + destruct (Hdown Hgt) as [_ Hcd].
      exfalso; exact (Qlt_irrefl _ (Qlt_trans _ _ _ Hq Hcd)).
Qed.


(** ** The claims *)

(** C1. For every rectangle input (x, y, w, h), [setRectangle] issues one
    upload whose data, read two floats per vertex, is exactly the six
    vertices (x,y), (x+w,y), (x,y+h), (x,y+h), (x+w,y), (x+w,y+h), in that
    order.  The upload is the same for every context and every state of the
    random source, which it leaves as it was: it is a function of the four
    arguments alone.  The sums are binary32 additions; for the arguments
    [main] passes, integers from 0 to 299 converted to binary32, they are
    the exact integer sums. *)
Theorem setRectangle_six_vertices :
  (forall (G : Type) (rnd : Rand G) (gl : Host) (x y w h : float32) (g : G),
      let data :=
        SliceToTypedArray
          [ x; y; F32.add x w; y; x; F32.add y h;
            x; F32.add y h; F32.add x w; y; F32.add x w; F32.add y h ] in
      setRectangle gl x y w h g = (tt, g, [BufferData ARRAY_BUFFER data STATIC_DRAW])
      /\ vertices (elems data)
         = [ (x, y); (F32.add x w, y); (x, F32.add y h);
             (x, F32.add y h); (F32.add x w, y); (F32.add x w, F32.add y h) ])
  /\ (forall x y w h : Z,
         0 <= x < 300 -> 0 <= y < 300 -> 0 <= w < 300 -> 0 <= h < 300 ->
         vertices (positionsNative (F32.of_Z x) (F32.of_Z y) (F32.of_Z w) (F32.of_Z h))
         = [ (F32.of_Z x, F32.of_Z y); (F32.of_Z (x + w), F32.of_Z y);
             (F32.of_Z x, F32.of_Z (y + h)); (F32.of_Z x, F32.of_Z (y + h));
             (F32.of_Z (x + w), F32.of_Z y);
             (F32.of_Z (x + w), F32.of_Z (y + h)) ]).
Proof.
  split.
  - intros G rnd gl x y w h g data. split; reflexivity.
  - intros x y w h Hx Hy Hw Hh.
    unfold positionsNative. cbv zeta. cbn [vertices].
    rewrite (of_Z_add_exact x w Hx Hw), (of_Z_add_exact y h Hy Hh). reflexivity.
Qed.

Lemma setRectangle_six_vertices_witness :
  vertices (positionsNative (F32.of_Z 0) (F32.of_Z 0) (F32.of_Z 10) (F32.of_Z 10))
  = [ (F32.of_Z 0, F32.of_Z 0); (F32.of_Z 10, F32.of_Z 0);
      (F32.of_Z 0, F32.of_Z 10); (F32.of_Z 0, F32.of_Z 10);
      (F32.of_Z 10, F32.of_Z 0); (F32.of_Z 10, F32.of_Z 10) ].
Proof.
  apply (proj2 setRectangle_six_vertices 0 0 10 10); lia.
Defined.




(** C3. In every execution in which context creation succeeds, [main]
    issues exactly 50 draw calls, each of them [DrawArrays] of a triangle
    list of 6 vertices starting at vertex 0. *)
Theorem main_fifty_draws :
  forall (G : Type) (rnd : Rand G) (host : Host) (g : G),
    contextError host (attrsOf host) = None ->
    List.filter isDraw (trace (main host) g) = repeat (DrawArrays TRIANGLES 0 6) 50
    /\ length (List.filter isDraw (trace (main host) g)) = 50%nat.
Proof.
  intros G rnd host g Hok.
  assert (Hd : List.filter isDraw (trace (main host) g)
               = repeat (DrawArrays TRIANGLES 0 6) 50).
  { rewrite (trace_main_ok host g Hok). apply draws_of_main. }
  split; [exact Hd|]. rewrite Hd. apply repeat_length.
Qed.

Lemma main_fifty_draws_witness :
  List.filter isDraw (trace (main Scripted.host) [7; 301; 600; 0; 255; 256; 128])
  = repeat (DrawArrays TRIANGLES 0 6) 50
  /\ length (List.filter isDraw
               (trace (main Scripted.host) [7; 301; 600; 0; 255; 256; 128])) = 50%nat.
Proof.
  apply (main_fifty_draws (list Z) scripted Scripted.host); reflexivity.
Defined.



(** C5.  Amended, as the code has it: every upload performed by [setRectangle] is
    one [BufferData] call on [ARRAY_BUFFER] carrying the 12 floats (48
    bytes) x, y, x+w, y, x, y+h, x, y+h, x+w, y, x+w, y+h of the six
    vertices; in the context it gives the bound vertex buffer a data store
    that is exactly these 12 floats, whatever the buffer held before, and
    leaves every other buffer alone.  The usage hint is [STATIC_DRAW], which
    announces contents specified once and used many times as the source of
    drawing. *)
Theorem setRectangle_replaces_buffer :
  forall (G : Type) (rnd : Rand G) (gl : Host) (x y w h : float32) (g : G)
         (st : GLState) (b : positive),
    arrayBufferBinding st = JSObject b ->
    let floats :=
      [ x; y; F32.add x w; y; x; F32.add y h;
        x; F32.add y h; F32.add x w; y; F32.add x w; F32.add y h ] in
    let st' := steps st (trace (setRectangle gl x y w h) g) in
    trace (setRectangle gl x y w h) g
    = [BufferData ARRAY_BUFFER {| elems := floats |} STATIC_DRAW]
    /\ length floats = 12%nat
    /\ byteLength {| elems := floats |} = 48
    /\ buffers st' !! b = Some (floats, STATIC_DRAW)
    /\ buffers st' = <[b := (floats, STATIC_DRAW)]> (buffers st)
    /\ (forall b' : positive, b' <> b -> buffers st' !! b' = buffers st !! b')
    /\ hints (trace (setRectangle gl x y w h) g) = [STATIC_DRAW]
    /\ usagePattern STATIC_DRAW = Some {| specified := Once; used := ManyTimes |}.
Proof.
  intros G rnd gl x y w h g st b Hbound floats st'.
  assert (Hst : buffers st' = <[b := (floats, STATIC_DRAW)]> (buffers st)).
  { subst st'. unfold trace, setRectangle, call, steps. cbn [snd fold_left step].
    unfold setBufferData. rewrite Hbound. reflexivity. }
  split; [reflexivity|]. split; [reflexivity|]. split; [reflexivity|].
  rewrite Hst. split; [apply lookup_insert_eq|]. split; [reflexivity|].
  split; [|split; reflexivity].
  intros b' Hne. apply lookup_insert_ne. congruence.
Qed.

Lemma setRectangle_replaces_buffer_witness :
  let floats :=
    [ F32.of_Z 0; F32.of_Z 0; F32.add (F32.of_Z 0) (F32.of_Z 10); F32.of_Z 0;
      F32.of_Z 0; F32.add (F32.of_Z 0) (F32.of_Z 10);
      F32.of_Z 0; F32.add (F32.of_Z 0) (F32.of_Z 10);
      F32.add (F32.of_Z 0) (F32.of_Z 10); F32.of_Z 0;
      F32.add (F32.of_Z 0) (F32.of_Z 10); F32.add (F32.of_Z 0) (F32.of_Z 10) ] in
  let st' :=
    steps staleContext
          (trace (setRectangle Scripted.host (F32.of_Z 0) (F32.of_Z 0)
                               (F32.of_Z 10) (F32.of_Z 10)) [7]) in
  trace (setRectangle Scripted.host (F32.of_Z 0) (F32.of_Z 0)
                      (F32.of_Z 10) (F32.of_Z 10)) [7]
  = [BufferData ARRAY_BUFFER {| elems := floats |} STATIC_DRAW]
  /\ length floats = 12%nat
  /\ byteLength {| elems := floats |} = 48
  /\ buffers st' !! 6%positive = Some (floats, STATIC_DRAW)
  /\ buffers st' = <[6%positive := (floats, STATIC_DRAW)]> (buffers staleContext)
  /\ (forall b' : positive, b' <> 6%positive ->
        buffers st' !! b' = buffers staleContext !! b')
  /\ hints (trace (setRectangle Scripted.host (F32.of_Z 0) (F32.of_Z 0)
                                (F32.of_Z 10) (F32.of_Z 10)) [7]) = [STATIC_DRAW]
  /\ usagePattern STATIC_DRAW = Some {| specified := Once; used := ManyTimes |}.
Proof.
  apply (setRectangle_replaces_buffer (list Z) scripted Scripted.host
           (F32.of_Z 0) (F32.of_Z 0) (F32.of_Z 10) (F32.of_Z 10) [7]
           staleContext 6%positive).
  reflexivity.
Defined.

(** C5.  The claim as stated fails: the upload of the rectangle
    (0, 0, 10, 10) does not pass a hint announcing data used once (or at
    most a few times, [STREAM_DRAW]); the hint it passes announces data used
    many times. *)
Lemma setRectangle_hint_not_drawn_once :
  ~ (exists (usage : GLenum) (pattern : UsagePattern),
        hints (trace (setRectangle Scripted.host (F32.of_Z 0) (F32.of_Z 0)
                                   (F32.of_Z 10) (F32.of_Z 10)) [7]) = [usage]
        /\ usagePattern usage = Some pattern
        /\ (used pattern = Once \/ used pattern = AFewTimes)).
Proof.
  intros (usage & pattern & Hhint & Hpat & Hused).
  injection Hhint as <-. injection Hpat as <-.
  destruct Hused as [H | H]; discriminate H.
Qed.

(** C6. [createShader] returns the shader object the context created when
    compilation succeeds.  When it fails it asks for the info log, prints
    it, deletes the shader object and returns the zero [js.Value]
    (undefined), which differs from every object handle; it returns in both
    cases.  [main] does not look at the result: whatever it is, it is the
    argument of the [AttachShader] call that follows, and the 50 draws are
    issued all the same. *)
Theorem createShader_contract :
  forall (G : Type) (rnd : Rand G) (gl : Host) (shaderType : GLenum)
         (source : string) (g : G),
    let shader := JSObject (newShader gl shaderType) in
    let compile :=
      [ CreateShader shaderType; ShaderSource shader source;
        CompileShader shader; GetShaderParameter shader COMPILE_STATUS ] in
    (compileStatus gl shader = true ->
     createShader gl shaderType source g = (shader, g, compile))
    /\ (compileStatus gl shader = false ->
        createShader gl shaderType source g
        = (JSUndefined, g,
           compile ++ [ GetShaderInfoLog shader;
                        Println (shaderInfoLog gl shader);
                        DeleteShader shader ])
        /\ jsValue_eqb JSUndefined shader = false
        /\ JSUndefined <> shader)
    /\ (contextError gl (attrsOf gl) = None ->
        In (AttachShader (JSObject (newProgram gl))
                         (value (createShader gl VERTEX_SHADER vertCode) g))
           (trace (main gl) g)
        /\ In (AttachShader (JSObject (newProgram gl))
                            (value (createShader gl FRAGMENT_SHADER fragCode) g))
              (trace (main gl) g)
        /\ length (List.filter isDraw (trace (main gl) g)) = 50%nat).
Proof.
  intros G rnd gl shaderType source g shader compile.
  split; [|split].
  - intros Hok. rewrite createShader_run.
    unfold shaderHandle, createShaderEvents. cbv zeta. fold shader.
    rewrite Hok. rewrite app_nil_r. reflexivity.
  - intros Hfail. rewrite createShader_run.
    unfold shaderHandle, createShaderEvents. cbv zeta. fold shader.
    rewrite Hfail. repeat split. discriminate.
  - intros Hctx. rewrite (trace_main_ok gl g Hctx).
    unfold value. rewrite !createShader_run. cbn [fst].
    split; [|split].
    + unfold mainEvents, beforeResolution, setupEvents, createProgramEvents.
      rewrite !in_app_iff. left. right. right. right. left. left.
      cbn [In]. right. left. reflexivity.
    + unfold mainEvents, beforeResolution, setupEvents, createProgramEvents.
      rewrite !in_app_iff. left. right. right. right. left. left.
      cbn [In]. right. right. left. reflexivity.
    + rewrite draws_of_main. apply repeat_length.
Qed.

Lemma createShader_contract_witness :
  createShader Scripted.host_bad_shaders VERTEX_SHADER vertCode [7]
  = (JSUndefined, [7],
     [ CreateShader VERTEX_SHADER; ShaderSource (JSObject 1) vertCode;
       CompileShader (JSObject 1); GetShaderParameter (JSObject 1) COMPILE_STATUS;
       GetShaderInfoLog (JSObject 1);
       Println "ERROR: 0:1: syntax error";
       DeleteShader (JSObject 1) ])
  /\ jsValue_eqb JSUndefined (JSObject 1) = false
  /\ JSUndefined <> JSObject 1.
Proof.
  apply (proj1 (proj2 (createShader_contract (list Z) scripted
                         Scripted.host_bad_shaders VERTEX_SHADER vertCode [7]))).
  reflexivity.
Defined.

(** C7. If rendering-context creation fails, [main] reports the error
    through the host's [alert] and returns at once: its whole trace is the
    canvas look-up, the two size attributes, the failed context creation and
    the alert.  No shader, program, buffer, uniform or draw call is issued,
    the random source is not touched and the state of any WebGL context is
    left as it was. *)
Theorem main_context_failure :
  forall (G : Type) (rnd : Rand G) (host : Host) (msg : string) (g : G),
    contextError host (attrsOf host) = Some msg ->
    main host g
    = (tt, g,
       [ GetElementById "mycanvas";
         SetAttribute "width" (clientWidth host);
         SetAttribute "height" (clientHeight host);
         NewContext (attrsOf host);
         Alert (String.append "Error: " msg) ])
    /\ List.filter isGL (trace (main host) g) = []
    /\ forall st : GLState, steps st (trace (main host) g) = st.
Proof.
  intros G rnd host msg g Herr.
  unfold trace. rewrite (main_run_error host msg g Herr).
  repeat split.
Qed.

Lemma main_context_failure_witness :
  main Scripted.host_no_webgl [7; 301]
  = (tt, [7; 301],
     [ GetElementById "mycanvas";
       SetAttribute "width" 300;
       SetAttribute "height" 150;
       NewContext (attrsOf Scripted.host_no_webgl);
       Alert "Error: no webgl" ])
  /\ List.filter isGL (trace (main Scripted.host_no_webgl) [7; 301]) = []
  /\ forall st : GLState, steps st (trace (main Scripted.host_no_webgl) [7; 301]) = st.
Proof.
  apply (main_context_failure (list Z) scripted Scripted.host_no_webgl
                              "no webgl" [7; 301]).
  reflexivity.
Defined.

(** C8. In every iteration of the drawing loop the colour uniform is set
    with alpha exactly 1.0 and with red, green and blue each at least 0 and
    below 1: the 50 [Uniform4f] calls of [main] all write the colour
    location with such values. *)
Theorem color_uniform_alpha_one :
  forall (G : Type) (rnd : Rand G) (host : Host) (g : G),
    contextError host (attrsOf host) = None ->
    length (colors (trace (main host) g)) = 50%nat
    /\ Forall (fun c : jsValue * (float32 * float32 * float32 * float32) =>
                 let '(l, (r, gr, b, a)) := c in
                 l = colorLocation host
                 /\ a = S754_finite false 8388608 (-23)
                 /\ F32.in_range F32.zero F32.one r
                 /\ F32.in_range F32.zero F32.one gr
                 /\ F32.in_range F32.zero F32.one b)
              (colors (trace (main host) g)).
Proof.
  intros G rnd host g Hok.
  rewrite (trace_main_ok host g Hok), colors_main.
  split.
  - rewrite length_map. apply palette_length.
  - apply List.Forall_map.
    eapply List.Forall_impl; [|apply palette_range].
    intros [[r gr] b] (Hr & Hg & Hb). cbn [fst snd].
    split; [reflexivity|]. split; [reflexivity|].
    split; [exact Hr|]. split; [exact Hg | exact Hb].
Qed.

Lemma color_uniform_alpha_one_witness :
  length (colors (trace (main Scripted.host) [7; 301; 600; 0; 255; 256; 128])) = 50%nat
  /\ Forall (fun c : jsValue * (float32 * float32 * float32 * float32) =>
               let '(l, (r, gr, b, a)) := c in
               l = colorLocation Scripted.host
               /\ a = S754_finite false 8388608 (-23)
               /\ F32.in_range F32.zero F32.one r
               /\ F32.in_range F32.zero F32.one gr
               /\ F32.in_range F32.zero F32.one b)
            (colors (trace (main Scripted.host) [7; 301; 600; 0; 255; 256; 128])).
Proof.
  apply (color_uniform_alpha_one (list Z) scripted Scripted.host).
  reflexivity.
Defined.

(** C9. In a run of [main] the resolution uniform is set by exactly one
    call, which comes after set-up and before the first upload and the
    first draw; no iteration of the loop issues another.  From the context
    reached after that call, any number of iterations changes at most the
    data store of the bound vertex buffer and the colour uniform (and adds
    to the record of draws): the binding, the program in use, the viewport,
    the clear colour, the attribute set-up, every other buffer and every
    other uniform are as they were.  In particular the resolution uniform,
    when its location is an object other than the colour's, still holds the
    canvas size. *)
Theorem resolution_uniform_set_once :
  forall (G : Type) (rnd : Rand G) (host : Host) (g : G),
    contextError host (attrsOf host) = None ->
    let loc := colorLocation host in
    trace (main host) g
    = beforeResolution host ++ [setResolution host] ++ loopEvents 50 loc g
    /\ List.filter isUniform2f (trace (main host) g) = [setResolution host]
    /\ List.filter isDraw (beforeResolution host) = []
    /\ uploads (beforeResolution host) = []
    /\ (forall n m : nat, (n + m = 50)%nat ->
          loopEvents 50 loc g = loopEvents n loc g ++ loopEvents m loc (stateAt n g)
          /\ List.filter isUniform2f (loopEvents n loc g) = [])
    /\ (forall (st : GLState) (n : nat),
          sameExcept loc
            (steps st (beforeResolution host ++ [setResolution host]))
            (steps st (beforeResolution host ++ [setResolution host]
                       ++ loopEvents n loc g)))
    /\ (forall (st : GLState) (n : nat) (r : positive),
          resolutionLocation host = JSObject r ->
          loc <> JSObject r ->
          uniforms (steps st (beforeResolution host ++ [setResolution host]
                              ++ loopEvents n loc g)) !! r
          = Some [F32.of_Z (clientWidth host); F32.of_Z (clientHeight host)]).
Proof.
  intros G rnd host g Hok loc.
  assert (Hframe : forall (st : GLState) (n : nat),
             sameExcept loc
               (steps st (beforeResolution host ++ [setResolution host]))
               (steps st (beforeResolution host ++ [setResolution host]
                          ++ loopEvents n loc g))).
  { intros st n.
    rewrite (app_assoc (beforeResolution host) [setResolution host]
                       (loopEvents n loc g)).
    rewrite (steps_app st (beforeResolution host ++ [setResolution host])
                       (loopEvents n loc g)).
    apply sameExcept_loop. }
  rewrite (trace_main_ok host g Hok).
  split; [reflexivity|].
  split.
  { unfold mainEvents, beforeResolution.
    rewrite !List.filter_app, uniform2f_setup, uniform2f_loop. reflexivity. }
  split.
  { unfold beforeResolution. rewrite List.filter_app, draws_of_setup. reflexivity. }
  split.
  { unfold beforeResolution. rewrite uploads_app, uploads_setup. reflexivity. }
  split.
  { intros n m Hnm. rewrite <- Hnm. split; [apply loopEvents_split|apply uniform2f_loop]. }
  split; [exact Hframe|].
  intros st n r Hres Hne.
  destruct (Hframe st n) as (_ & _ & _ & _ & _ & _ & Hu & _).
  rewrite Hu by congruence.
  rewrite steps_app. unfold steps at 1. cbn [fold_left step setResolution].
  rewrite Hres. cbn [setUniform uniforms]. apply lookup_insert_eq.
Qed.

Lemma resolution_uniform_set_once_witness :
  List.filter isUniform2f (trace (main Scripted.host) [7; 301; 600; 0; 255; 256; 128])
  = [Uniform2f (JSObject 4) (F32.of_Z 300) (F32.of_Z 150)]
  /\ uniforms (steps staleContext
                 (beforeResolution Scripted.host ++ [setResolution Scripted.host]
                  ++ loopEvents 50 (colorLocation Scripted.host)
                                [7; 301; 600; 0; 255; 256; 128])) !! 4%positive
     = Some [F32.of_Z 300; F32.of_Z 150].
Proof.
  pose proof (resolution_uniform_set_once (list Z) scripted Scripted.host
                [7; 301; 600; 0; 255; 256; 128] eq_refl) as H.
  cbv zeta in H.
  destruct H as (_ & Honce & _ & _ & _ & _ & Hres).
  split.
  - exact Honce.
  - apply (Hres staleContext 50%nat 4%positive); [reflexivity | discriminate].
Defined.



(** * Further properties of the program *)

(** ** Lemmas *)

Lemma printed_app (t1 t2 : list Event) :
  printed (t1 ++ t2) = printed t1 ++ printed t2.
Proof.
  induction t1 as [|e t1 IH]; [reflexivity|].
  destruct e; simpl; rewrite ?IH; reflexivity.
Qed.

Lemma printed_loop {G : Type} {rnd : Rand G} (n : nat) (loc : jsValue) (g : G) :
  printed (loopEvents n loc g) = [].
Proof.
  revert g; induction n as [|n IH]; intros g; [reflexivity|].
  cbn [loopEvents]. unfold iterationEvents.
  destruct (colorParams g) as [[r gr] b].
  cbn [app printed]. apply IH.
Qed.

(** ** createProgram *)

(** X1. [createProgram] attaches the vertex shader, then the fragment
    shader, to a new program and links it.  It returns the program object
    when the link status is true; otherwise it fetches and prints the
    program info log, deletes the program and returns the zero [js.Value],
    which differs from the program object.  It attaches whatever handles it
    is given, without looking at them. *)
Theorem createProgram_contract :
  forall (G : Type) (rnd : Rand G) (gl : Host) (vertexShader fragmentShader : jsValue)
         (g : G),
    let program := JSObject (newProgram gl) in
    let link :=
      [ CreateProgram; AttachShader program vertexShader;
        AttachShader program fragmentShader; LinkProgram program;
        GetProgramParameterb program LINK_STATUS ] in
    (linkStatus gl program = true ->
     createProgram gl vertexShader fragmentShader g = (program, g, link))
    /\ (linkStatus gl program = false ->
        createProgram gl vertexShader fragmentShader g
        = (JSUndefined, g,
           link ++ [ GetProgramInfoLog program;
                     Println (programInfoLog gl program);
                     DeleteProgram program ])
        /\ jsValue_eqb JSUndefined program = false).
Proof.
  intros G rnd gl vs fs g program link. split.
  - intros Hok. rewrite createProgram_run.
    unfold programHandle, createProgramEvents. cbv zeta. fold program.
    rewrite Hok, app_nil_r. reflexivity.
  - intros Hfail. rewrite createProgram_run.
    unfold programHandle, createProgramEvents. cbv zeta. fold program.
    rewrite Hfail. split; reflexivity.
Qed.

Lemma createProgram_contract_witness :
  createProgram Scripted.host_bad_shaders JSUndefined JSUndefined [7]
  = (JSUndefined, [7],
     [ CreateProgram; AttachShader (JSObject 3) JSUndefined;
       AttachShader (JSObject 3) JSUndefined; LinkProgram (JSObject 3);
       GetProgramParameterb (JSObject 3) LINK_STATUS;
       GetProgramInfoLog (JSObject 3); Println "link failed";
       DeleteProgram (JSObject 3) ])
  /\ jsValue_eqb JSUndefined (JSObject 3) = false.
Proof.
  apply (proj2 (createProgram_contract (list Z) scripted Scripted.host_bad_shaders
                  JSUndefined JSUndefined [7])).
  reflexivity.
Defined.

(** ** Diagnostics *)

(** X2. A run of [main] prints one line per failed build step and nothing
    else: the vertex shader's info log if its compilation failed, then the
    fragment shader's if its compilation failed, then the program's if
    linking failed.  When context creation fails nothing is printed. *)
Theorem one_log_line_per_failure :
  forall (G : Type) (rnd : Rand G) (host : Host) (g : G),
    (contextError host (attrsOf host) = None ->
     printed (trace (main host) g)
     = (if compileStatus host (JSObject (newShader host VERTEX_SHADER)) then []
        else [shaderInfoLog host (JSObject (newShader host VERTEX_SHADER))])
       ++ (if compileStatus host (JSObject (newShader host FRAGMENT_SHADER)) then []
           else [shaderInfoLog host (JSObject (newShader host FRAGMENT_SHADER))])
       ++ (if linkStatus host (JSObject (newProgram host)) then []
           else [programInfoLog host (JSObject (newProgram host))]))
    /\ (forall msg : string,
           contextError host (attrsOf host) = Some msg ->
           printed (trace (main host) g) = []).
Proof.
  intros G rnd host g. split.
  - intros Hok. rewrite (trace_main_ok host g Hok).
    unfold mainEvents. rewrite !printed_app, printed_loop.
    unfold beforeResolution, preamble, setResolution.
    unfold setupEvents, createShaderEvents, createProgramEvents, bindingEvents.
    cbv zeta.
    destruct (compileStatus host (JSObject (newShader host VERTEX_SHADER)));
      destruct (compileStatus host (JSObject (newShader host FRAGMENT_SHADER)));
      destruct (linkStatus host (JSObject (newProgram host)));
      reflexivity.
  - intros msg Herr. unfold trace. rewrite (main_run_error host msg g Herr).
    reflexivity.
Qed.

Lemma one_log_line_per_failure_witness :
  printed (trace (main Scripted.host_bad_shaders) [7; 301])
  = ["ERROR: 0:1: syntax error"; "ERROR: 0:1: syntax error"; "link failed"]%string.
Proof.
  apply (proj1 (one_log_line_per_failure (list Z) scripted
                  Scripted.host_bad_shaders [7; 301])).
  reflexivity.
Defined.

(** ** The scene *)

(** X3. The scene depends on the random source alone: two runs of [main]
    from the same random state, in any two browsers whose context creation
    succeeds (whatever the canvas size and whether or not the shaders
    compile and link), upload the same rectangles, set the same colour
    values and issue the same draw calls, and leave the random source in
    the same state. *)
Theorem scene_independent_of_host :
  forall (G : Type) (rnd : Rand G) (host1 host2 : Host) (g : G),
    contextError host1 (attrsOf host1) = None ->
    contextError host2 (attrsOf host2) = None ->
    uploads (trace (main host1) g) = uploads (trace (main host2) g)
    /\ map snd (colors (trace (main host1) g)) = map snd (colors (trace (main host2) g))
    /\ List.filter isDraw (trace (main host1) g)
       = List.filter isDraw (trace (main host2) g)
    /\ next (main host1) g = next (main host2) g.
Proof.
  intros G rnd host1 host2 g H1 H2.
  unfold next.
  rewrite (trace_main_ok host1 g H1), (trace_main_ok host2 g H2).
  rewrite (main_run_ok host1 g H1), (main_run_ok host2 g H2).
  rewrite !uploads_main, !colors_main, !draws_of_main, !map_map.
  repeat split.
Qed.

Lemma scene_independent_of_host_witness :
  uploads (trace (main Scripted.host) [7; 301; 600])
  = uploads (trace (main Scripted.host_bad_shaders) [7; 301; 600])
  /\ map snd (colors (trace (main Scripted.host) [7; 301; 600]))
     = map snd (colors (trace (main Scripted.host_bad_shaders) [7; 301; 600]))
  /\ List.filter isDraw (trace (main Scripted.host) [7; 301; 600])
     = List.filter isDraw (trace (main Scripted.host_bad_shaders) [7; 301; 600])
  /\ next (main Scripted.host) [7; 301; 600]
     = next (main Scripted.host_bad_shaders) [7; 301; 600].
Proof.
  apply (scene_independent_of_host (list Z) scripted Scripted.host
           Scripted.host_bad_shaders [7; 301; 600]); reflexivity.
Defined.

(** ** What the draw calls read *)

Lemma drawInputs_app (loc : positive) (st : GLState) (t1 t2 : list Event) :
  drawInputs loc st (t1 ++ t2)
  = drawInputs loc st t1 ++ drawInputs loc (steps st t1) t2.
Proof.
  revert st; induction t1 as [|e t1 IH]; intros st; [reflexivity|].
  cbn [app drawInputs steps fold_left]. fold (steps (step st e) t1).
  rewrite IH. destruct e; reflexivity.
Qed.

Lemma drawInputs_no_draw (loc : positive) (st : GLState) (t : list Event) :
  List.filter isDraw t = [] -> drawInputs loc st t = [].
Proof.
  revert st; induction t as [|e t IH]; intros st Hno; [reflexivity|].
  cbn [drawInputs]. destruct e; cbn [List.filter isDraw] in Hno;
    try discriminate; apply IH; exact Hno.
Qed.

Lemma drawInputs_loop {G : Type} {rnd : Rand G} (n : nat) (c b : positive)
      (g : G) (st : GLState) :
  arrayBufferBinding st = JSObject b ->
  drawInputs c st (loopEvents n (JSObject c) g)
  = map drawn (combine (rectangles n g) (palette n g)).
Proof.
  revert g st; induction n as [|n IH]; intros g st Hb; [reflexivity|].
  cbn [loopEvents rectangles palette combine map].
  unfold iterationEvents.
  destruct (colorParams g) as [[r gr] bl] eqn:Hc.
  cbn [app drawInputs]. f_equal.
  - unfold drawn. cbn [fst snd step]. unfold setBufferData. rewrite Hb.
    unfold setUniform. cbn [arrayBufferBinding buffers uniforms elems SliceToTypedArray].
    rewrite !lookup_insert_eq. reflexivity.
  - apply IH. cbn [step]. unfold setBufferData. rewrite Hb.
    unfold setUniform. cbn [arrayBufferBinding]. reflexivity.
Qed.

(** X4. Every draw call of [main] reads the rectangle and the colour of its
    own iteration: in the context the earlier calls produce (from any
    starting context), the buffer bound at the i-th draw holds exactly the
    i-th sampled rectangle, uploaded with [STATIC_DRAW], and the colour
    uniform holds the i-th sampled colour with alpha 1.  The data store has
    six vertices, the number each draw asks for.  (The colour location is
    assumed to be an object, as it is when the program linked.) *)
Theorem each_draw_reads_its_rectangle :
  forall (G : Type) (rnd : Rand G) (host : Host) (g : G) (st : GLState)
         (c : positive),
    contextError host (attrsOf host) = None ->
    colorLocation host = JSObject c ->
    drawInputs c st (trace (main host) g)
    = map drawn (combine (rectangles 50 g) (palette 50 g))
    /\ length (drawInputs c st (trace (main host) g)) = 50%nat
    /\ Forall (fun p : Z * Z * Z * Z => length (vertices (rectData p)) = 6%nat)
              (rectangles 50 g).
Proof.
  intros G rnd host g st c Hok Hc.
  assert (Hd : drawInputs c st (trace (main host) g)
               = map drawn (combine (rectangles 50 g) (palette 50 g))).
  { rewrite (trace_main_ok host g Hok). unfold mainEvents.
    rewrite app_assoc, drawInputs_app.
    rewrite (drawInputs_no_draw c st (beforeResolution host ++ [setResolution host])).
    - rewrite Hc. cbn [app].
      apply (drawInputs_loop 50 c (newBuffer host)).
      apply main_uploads_to_position_buffer.
    - rewrite List.filter_app. unfold beforeResolution.
      rewrite List.filter_app, draws_of_setup. reflexivity. }
  split; [exact Hd|]. split.
  - rewrite Hd, length_map, length_combine, rectangles_length, palette_length.
    reflexivity.
  - apply Forall_forall. intros [[[x y] w] h] _. reflexivity.
Qed.

Lemma each_draw_reads_its_rectangle_witness :
  drawInputs 5 staleContext (trace (main Scripted.host) [7; 301; 600; 0; 255; 256; 128])
  = map drawn (combine (rectangles 50 [7; 301; 600; 0; 255; 256; 128])
                       (palette 50 [7; 301; 600; 0; 255; 256; 128]))
  /\ length (drawInputs 5 staleContext
               (trace (main Scripted.host) [7; 301; 600; 0; 255; 256; 128])) = 50%nat
  /\ Forall (fun p : Z * Z * Z * Z => length (vertices (rectData p)) = 6%nat)
            (rectangles 50 [7; 301; 600; 0; 255; 256; 128]).
Proof.
  apply (each_draw_reads_its_rectangle (list Z) scripted Scripted.host
           [7; 301; 600; 0; 255; 256; 128] staleContext 5%positive);
    reflexivity.
Defined.

(** ** Coordinates and sizes as integers *)

Lemma integerOf_of_Z (n : Z) :
  0 <= n < 65536 -> integerOf (F32.of_Z n) = Some n.
Proof.
  intros Hn.
  assert (Hall : countUp (Z.to_nat 65536) 0 (fun k =>
            match integerOf (F32.of_Z k) with
            | Some k' => k' =? k
            | None => false
            end) = true)
    by (vm_compute; reflexivity).
  assert (Hn' : 0 <= n < 0 + Z.of_nat (Z.to_nat 65536)) by (rewrite Z2Nat.id; lia).
  pose proof (countUp_spec _ _ _ Hall n Hn') as Hk. cbv beta in Hk.
  destruct (integerOf (F32.of_Z n)) as [k|]; [|discriminate].
  apply Z.eqb_eq in Hk. congruence.
Qed.




(** X6. One canvas size reaches every place that needs it: the measured
    client width and height are written back as the canvas' [width] and
    [height] attributes, given to [Viewport] with origin (0, 0), and set as
    the resolution uniform, whose two floats are exactly these integers for
    sizes below 65536. *)
Theorem canvas_size_consistent :
  forall (G : Type) (rnd : Rand G) (host : Host) (g : G),
    contextError host (attrsOf host) = None ->
    0 <= clientWidth host < 65536 ->
    0 <= clientHeight host < 65536 ->
    exists a b : float32,
      In (SetAttribute "width" (clientWidth host)) (trace (main host) g)
      /\ In (SetAttribute "height" (clientHeight host)) (trace (main host) g)
      /\ In (Viewport 0 0 (clientWidth host) (clientHeight host)) (trace (main host) g)
      /\ List.filter isUniform2f (trace (main host) g)
         = [Uniform2f (resolutionLocation host) a b]
      /\ integerOf a = Some (clientWidth host)
      /\ integerOf b = Some (clientHeight host).
Proof.
  intros G rnd host g Hok Hw Hh.
  exists (F32.of_Z (clientWidth host)), (F32.of_Z (clientHeight host)).
  rewrite (trace_main_ok host g Hok).
  split; [|split; [|split; [|split; [|split]]]].
  - unfold mainEvents, beforeResolution, preamble.
    rewrite !in_app_iff. left. left. cbn [In]. right. left. reflexivity.
  - unfold mainEvents, beforeResolution, preamble.
    rewrite !in_app_iff. left. left. cbn [In]. right. right. left. reflexivity.
  - unfold mainEvents, beforeResolution, setupEvents, bindingEvents.
    rewrite !in_app_iff. left. right. right. right. right.
    cbn [In]. do 5 right. left. reflexivity.
  - unfold mainEvents, beforeResolution.
    rewrite !List.filter_app, uniform2f_setup, uniform2f_loop. reflexivity.
  - apply integerOf_of_Z. exact Hw.
  - apply integerOf_of_Z. exact Hh.
Qed.

Lemma canvas_size_consistent_witness :
  exists a b : float32,
    In (SetAttribute "width" 300) (trace (main Scripted.host) [7; 301])
    /\ In (SetAttribute "height" 150) (trace (main Scripted.host) [7; 301])
    /\ In (Viewport 0 0 300 150) (trace (main Scripted.host) [7; 301])
    /\ List.filter isUniform2f (trace (main Scripted.host) [7; 301])
       = [Uniform2f (resolutionLocation Scripted.host) a b]
    /\ integerOf a = Some 300
    /\ integerOf b = Some 150.
Proof.
  apply (canvas_size_consistent (list Z) scripted Scripted.host [7; 301]);
    [reflexivity | cbn; lia | cbn; lia].
Defined.

(** ** The context the loop starts from *)

Lemma steps_beforeResolution (host : Host) (st : GLState) :
  steps st (beforeResolution host)
  = {| arrayBufferBinding := positionBuffer host;
       buffers := buffers st;
       uniforms := uniforms st;
       currentProgram := programHandle host;
       viewport := (0, 0, clientWidth host, clientHeight host);
       clearColor := (F32.of_Z 0, F32.of_Z 0, F32.of_Z 0, F32.of_Z 0);
       enabledAttribs := positionLocation host :: enabledAttribs st;
       attribPointers :=
         (positionLocation host, (2, FLOAT, false, 0, 0)) :: attribPointers st;
       draws := draws st |}.
Proof.
  unfold beforeResolution, preamble.
  unfold setupEvents, createShaderEvents, createProgramEvents, bindingEvents.
  unfold positionLocation, programHandle.
  cbv zeta.
  destruct (compileStatus host (JSObject (newShader host VERTEX_SHADER)));
    destruct (compileStatus host (JSObject (newShader host FRAGMENT_SHADER)));
    destruct (linkStatus host (JSObject (newProgram host)));
    reflexivity.
Qed.

(** X7. When the loop of [main] starts, the context is fully set up,
    whatever it was before: the position buffer is bound to [ARRAY_BUFFER],
    the program handle is in use, the viewport is the whole canvas from
    (0, 0), the clear colour is transparent black, the position attribute
    is enabled and reads two unnormalised floats per vertex with stride 0
    from offset 0, and the resolution uniform (when its location is an
    object) holds the canvas size.  Set-up uploads no data and draws
    nothing. *)
Theorem context_after_setup :
  forall (G : Type) (rnd : Rand G) (host : Host) (g : G) (st : GLState),
    contextError host (attrsOf host) = None ->
    let setup := beforeResolution host ++ [setResolution host] in
    let st' := steps st setup in
    trace (main host) g = setup ++ loopEvents 50 (colorLocation host) g
    /\ arrayBufferBinding st' = JSObject (newBuffer host)
    /\ currentProgram st' = programHandle host
    /\ viewport st' = (0, 0, clientWidth host, clientHeight host)
    /\ clearColor st' = (F32.of_Z 0, F32.of_Z 0, F32.of_Z 0, F32.of_Z 0)
    /\ enabledAttribs st' = positionLocation host :: enabledAttribs st
    /\ attribPointers st'
       = (positionLocation host, (2, FLOAT, false, 0, 0)) :: attribPointers st
    /\ buffers st' = buffers st
    /\ draws st' = draws st
    /\ (forall r : positive,
           resolutionLocation host = JSObject r ->
           uniforms st' !! r
           = Some [F32.of_Z (clientWidth host); F32.of_Z (clientHeight host)]).
Proof.
  intros G rnd host g st Hok setup st'.
  split.
  { rewrite (trace_main_ok host g Hok). unfold mainEvents, setup.
    rewrite <- app_assoc. reflexivity. }
  subst st' setup. rewrite steps_app, steps_beforeResolution.
  unfold steps. cbn [fold_left]. unfold setResolution, step, setUniform.
  destruct (resolutionLocation host) as [| |r0]; cbn;
    repeat (split; [reflexivity|]).
  - intros r Hr; discriminate.
  - intros r Hr; discriminate.
  - intros r Hr. injection Hr as <-. apply lookup_insert_eq.
Qed.

Lemma context_after_setup_witness :
  trace (main Scripted.host) [7; 301]
  = (beforeResolution Scripted.host ++ [setResolution Scripted.host])
    ++ loopEvents 50 (colorLocation Scripted.host) [7; 301]
  /\ viewport (steps staleContext
                 (beforeResolution Scripted.host ++ [setResolution Scripted.host]))
     = (0, 0, 300, 150)
  /\ uniforms (steps staleContext
                 (beforeResolution Scripted.host ++ [setResolution Scripted.host]))
       !! 4%positive
     = Some [F32.of_Z 300; F32.of_Z 150].
Proof.
  pose proof (context_after_setup (list Z) scripted Scripted.host [7; 301]
                staleContext eq_refl) as H.
  cbv zeta in H.
  destruct H as (Ht & _ & _ & Hv & _ & _ & _ & _ & _ & Hu).
  split; [exact Ht|]. split; [exact Hv|].
  apply (Hu 4%positive). reflexivity.
Defined.

(** ** Deleted objects *)

Lemma forallb_handleFree_shader (s : jsValue) (t : list Event) :
  forallb handleFree t = true ->
  forallb (fun e' => negb (isArg s (shaderArg e'))) t = true.
Proof.
  induction t as [|e t IH]; [reflexivity|].
  cbn [forallb]. intros H. apply andb_prop in H as [He Ht].
  rewrite (IH Ht), andb_true_r.
  unfold handleFree in He. destruct (shaderArg e); [discriminate|reflexivity].
Qed.

Lemma forallb_handleFree_program (p : jsValue) (t : list Event) :
  forallb handleFree t = true ->
  forallb (fun e' => negb (isArg p (programArg e'))) t = true.
Proof.
  induction t as [|e t IH]; [reflexivity|].
  cbn [forallb]. intros H. apply andb_prop in H as [He Ht].
  rewrite (IH Ht), andb_true_r.
  unfold handleFree in He.
  destruct (shaderArg e); [discriminate|].
  destruct (programArg e); [discriminate|reflexivity].
Qed.

Lemma noUseAfterDelete_handleFree (t : list Event) :
  forallb handleFree t = true -> noUseAfterDelete t = true.
Proof.
  induction t as [|e t IH]; [reflexivity|].
  cbn [forallb noUseAfterDelete]. intros H. apply andb_prop in H as [He Ht].
  rewrite (IH Ht), andb_true_r.
  destruct e; try reflexivity; discriminate.
Qed.

Lemma noUseAfterDelete_app (t1 t2 : list Event) :
  forallb handleFree t2 = true ->
  noUseAfterDelete (t1 ++ t2) = noUseAfterDelete t1.
Proof.
  intros Hfree. induction t1 as [|e t1 IH].
  - cbn [app]. rewrite (noUseAfterDelete_handleFree t2 Hfree). reflexivity.
  - cbn [app noUseAfterDelete]. rewrite IH.
    destruct e; try reflexivity;
      rewrite forallb_app;
      [rewrite (forallb_handleFree_shader _ t2 Hfree)
      |rewrite (forallb_handleFree_program _ t2 Hfree)];
      rewrite andb_true_r; reflexivity.
Qed.

Lemma handleFree_loop {G : Type} {rnd : Rand G} (n : nat) (loc : jsValue) (g : G) :
  forallb handleFree (loopEvents n loc g) = true.
Proof.
  revert g; induction n as [|n IH]; intros g; [reflexivity|].
  cbn [loopEvents]. unfold iterationEvents.
  destruct (colorParams g) as [[r gr] b].
  cbn [app forallb]. rewrite IH. reflexivity.
Qed.

(** X8. [main] never hands a deleted object to a later call: when a shader
    fails to compile or the program fails to link, the object
    [createShader] or [createProgram] deleted appears in no call after its
    deletion (the calls that follow get the zero [js.Value] instead).  The
    two shader objects are assumed distinct, as objects the browser creates
    are. *)
Theorem main_no_use_after_delete :
  forall (G : Type) (rnd : Rand G) (host : Host) (g : G),
    contextError host (attrsOf host) = None ->
    newShader host VERTEX_SHADER <> newShader host FRAGMENT_SHADER ->
    noUseAfterDelete (trace (main host) g) = true.
Proof.
  intros G rnd host g Hok Hne.
  rewrite (trace_main_ok host g Hok). unfold mainEvents.
  rewrite app_assoc, noUseAfterDelete_app by apply handleFree_loop.
  rewrite noUseAfterDelete_app by reflexivity.
  assert (Hvf : Pos.eqb (newShader host VERTEX_SHADER)
                        (newShader host FRAGMENT_SHADER) = false)
    by (apply Pos.eqb_neq; exact Hne).
  assert (Hfv : Pos.eqb (newShader host FRAGMENT_SHADER)
                        (newShader host VERTEX_SHADER) = false)
    by (apply Pos.eqb_neq; congruence).
  unfold beforeResolution, preamble.
  unfold setupEvents, createShaderEvents, createProgramEvents, bindingEvents.
  unfold shaderHandle, programHandle.
  cbv zeta.
  destruct (compileStatus host (JSObject (newShader host VERTEX_SHADER)));
    destruct (compileStatus host (JSObject (newShader host FRAGMENT_SHADER)));
    destruct (linkStatus host (JSObject (newProgram host)));
    cbn [app noUseAfterDelete forallb negb andb isArg shaderArg programArg
         jsValue_eqb];
    rewrite ?Hvf, ?Hfv; reflexivity.
Qed.

Lemma main_no_use_after_delete_witness :
  noUseAfterDelete (trace (main Scripted.host_bad_shaders) [7; 301]) = true.
Proof.
  apply (main_no_use_after_delete (list Z) scripted Scripted.host_bad_shaders
           [7; 301]); [reflexivity | discriminate].
Defined.

(** ** The vertex shader on whole pixels *)

(** X9. In binary32, for every whole pixel point with 0 <= px, py <= 598 (the
    coordinates [main] can upload) and every canvas of whole size
    1 <= W, H <= 300, the vertex shader puts the point inside the clip-space
    square exactly when the pixel is on the canvas: -1 <= clip x <= 1 iff
    px <= W, and -1 <= clip y <= 1 iff py <= H. *)
Theorem clip_space_iff_on_canvas :
  forall W H px py : Z,
    1 <= W <= 300 -> 1 <= H <= 300 -> 0 <= px <= 598 -> 0 <= py <= 598 ->
    let '(cx, cy, _, _) :=
      Shader.vert_main (F32.of_Z px, F32.of_Z py) (F32.of_Z W, F32.of_Z H) in
    (inClip cx = true <-> px <= W) /\ (inClip cy = true <-> py <= H).
Proof.
  intros W H px py HW HH Hx Hy. rewrite vert_main_binary32.
  destruct (grid_inClip px W HW Hx) as [Hcx _].
  destruct (grid_inClip py H HH Hy) as [_ Hcy].
  rewrite Hcx, Hcy. split; apply Z.leb_le.
Qed.

Lemma clip_space_iff_on_canvas_witness :
  let '(cx, cy, _, _) :=
    Shader.vert_main (F32.of_Z 301, F32.of_Z 150) (F32.of_Z 300, F32.of_Z 150) in
  (inClip cx = true <-> 301 <= 300) /\ (inClip cy = true <-> 150 <= 150).
Proof.
  apply (clip_space_iff_on_canvas 300 150 301 150); lia.
Defined.



(** X11. In binary32, on the same grid, the vertex shader keeps the x axis
    and flips the y axis, strictly: the clip-space components are finite,
    px < px' iff the value of clip x is smaller than that of clip x', and
    py < py' iff the value of clip y is larger than that of clip y'. *)
Theorem clip_space_orientation :
  forall W H px py px' py' : Z,
    1 <= W <= 300 -> 1 <= H <= 300 ->
    0 <= px <= 598 -> 0 <= py <= 598 -> 0 <= px' <= 598 -> 0 <= py' <= 598 ->
    let '(cx, cy, _, _) :=
      Shader.vert_main (F32.of_Z px, F32.of_Z py) (F32.of_Z W, F32.of_Z H) in
    let '(cx', cy', _, _) :=
      Shader.vert_main (F32.of_Z px', F32.of_Z py') (F32.of_Z W, F32.of_Z H) in
    exists qx qy qx' qy' : Q,
      rationalOf cx = Some qx /\ rationalOf cy = Some qy
      /\ rationalOf cx' = Some qx' /\ rationalOf cy' = Some qy'
      /\ (px < px' <-> (qx < qx')%Q)
      /\ (py < py' <-> (qy' < qy)%Q).
Proof.
  intros W H px py px' py' HW HH Hx Hy Hx' Hy'. rewrite !vert_main_binary32.
  destruct (grid_order W px px' HW Hx Hx')
    as (qx & qx' & _ & _ & Hqx & Hqx' & _ & _ & Hox & _).
  destruct (grid_order H py py' HH Hy Hy')
    as (_ & _ & qy & qy' & _ & _ & Hqy & Hqy' & _ & Hoy).
  exists qx, qy, qx', qy'.
  split; [exact Hqx|]. split; [exact Hqy|].
  split; [exact Hqx'|]. split; [exact Hqy'|].
  split; assumption.
Qed.

Lemma clip_space_orientation_witness :
  let '(cx, cy, _, _) :=
    Shader.vert_main (F32.of_Z 10, F32.of_Z 20) (F32.of_Z 300, F32.of_Z 150) in
  let '(cx', cy', _, _) :=
    Shader.vert_main (F32.of_Z 11, F32.of_Z 21) (F32.of_Z 300, F32.of_Z 150) in
  exists qx qy qx' qy' : Q,
    rationalOf cx = Some qx /\ rationalOf cy = Some qy
    /\ rationalOf cx' = Some qx' /\ rationalOf cy' = Some qy'
    /\ (10 < 11 <-> (qx < qx')%Q)
    /\ (20 < 21 <-> (qy' < qy)%Q).
Proof.
  apply (clip_space_orientation 300 150 10 20 11 21); lia.
Defined.

(** ** The vertex shader in binary32 *)

Lemma corners_exact (n : Z) :
  1 <= n <= 16384 ->
  clipX (F32.of_Z 0) (F32.of_Z n) = F32.of_Z (-1)
  /\ clipX (F32.of_Z n) (F32.of_Z n) = F32.of_Z 1
  /\ clipY (F32.of_Z 0) (F32.of_Z n) = F32.of_Z 1
  /\ clipY (F32.of_Z n) (F32.of_Z n) = F32.of_Z (-1).
Proof.
  intros Hn.
  assert (Hall : countUp (Z.to_nat 16384) 1 (fun k =>
            F32.same (clipX (F32.of_Z 0) (F32.of_Z k)) (F32.of_Z (-1))
            && F32.same (clipX (F32.of_Z k) (F32.of_Z k)) (F32.of_Z 1)
            && F32.same (clipY (F32.of_Z 0) (F32.of_Z k)) (F32.of_Z 1)
            && F32.same (clipY (F32.of_Z k) (F32.of_Z k)) (F32.of_Z (-1))) = true)
    by (vm_compute; reflexivity).
  assert (Hn' : 1 <= n < 1 + Z.of_nat (Z.to_nat 16384)) by (rewrite Z2Nat.id; lia).
  pose proof (countUp_spec _ _ _ Hall n Hn') as Hk. cbv beta in Hk.
  apply andb_prop in Hk as [Hk H4]. apply andb_prop in Hk as [Hk H3].
  apply andb_prop in Hk as [H1 H2].
  repeat split; apply F32_same_eq; assumption.
Qed.

(** X12. In binary32 the vertex shader maps the corners of the canvas
    exactly, for every canvas size from 1 to 16384 pixels a side: the pixel
    (0, 0) goes to the clip-space point (-1, 1) and the pixel (W, H) to
    (1, -1), both with z = 0 and w = 1. *)
Theorem canvas_corners_exact_binary32 :
  forall W H : Z,
    1 <= W <= 16384 -> 1 <= H <= 16384 ->
    Shader.vert_main (F32.of_Z 0, F32.of_Z 0) (F32.of_Z W, F32.of_Z H)
    = (F32.of_Z (-1), F32.of_Z 1, F32.of_Z 0, F32.of_Z 1)
    /\ Shader.vert_main (F32.of_Z W, F32.of_Z H) (F32.of_Z W, F32.of_Z H)
       = (F32.of_Z 1, F32.of_Z (-1), F32.of_Z 0, F32.of_Z 1).
Proof.
  intros W H HW HH. rewrite !vert_main_binary32.
  destruct (corners_exact W HW) as (Hx0 & Hx1 & _ & _).
  destruct (corners_exact H HH) as (_ & _ & Hy0 & Hy1).
  rewrite Hx0, Hx1, Hy0, Hy1. split; reflexivity.
Qed.

Lemma canvas_corners_exact_binary32_witness :
  Shader.vert_main (F32.of_Z 0, F32.of_Z 0) (F32.of_Z 1366, F32.of_Z 768)
  = (F32.of_Z (-1), F32.of_Z 1, F32.of_Z 0, F32.of_Z 1)
  /\ Shader.vert_main (F32.of_Z 1366, F32.of_Z 768) (F32.of_Z 1366, F32.of_Z 768)
     = (F32.of_Z 1, F32.of_Z (-1), F32.of_Z 0, F32.of_Z 1).
Proof.
  apply (canvas_corners_exact_binary32 1366 768); lia.
Defined.

Lemma zero_resolution_axis (n : Z) :
  0 <= n < 599 ->
  clipX (F32.of_Z n) (F32.of_Z 0)
  = (if n =? 0 then S754_nan else S754_infinity false)
  /\ clipY (F32.of_Z n) (F32.of_Z 0)
     = (if n =? 0 then S754_nan else S754_infinity true).
Proof.
  intros Hn.
  assert (Hall : countUp 599 0 (fun k =>
            F32.same (clipX (F32.of_Z k) (F32.of_Z 0))
                     (if k =? 0 then S754_nan else S754_infinity false)
            && F32.same (clipY (F32.of_Z k) (F32.of_Z 0))
                        (if k =? 0 then S754_nan else S754_infinity true)) = true)
    by (vm_compute; reflexivity).
  assert (Hn' : 0 <= n < 0 + Z.of_nat 599) by lia.
  pose proof (countUp_spec _ _ _ Hall n Hn') as Hk. cbv beta in Hk.
  apply andb_prop in Hk as [H1 H2].
  split; apply F32_same_eq; assumption.
Qed.

(** X13. The shader divides by the resolution without a guard.  On a canvas
    measured as 0 by 0, in binary32, no coordinate [main] can upload (the
    integers 0 to 598) gets a finite clip-space position: the clip x is NaN
    for pixel x = 0 and +infinity otherwise, the clip y is NaN for pixel
    y = 0 and -infinity otherwise. *)
Theorem zero_size_canvas_not_finite :
  forall px py : Z,
    0 <= px <= 598 -> 0 <= py <= 598 ->
    Shader.vert_main (F32.of_Z px, F32.of_Z py) (F32.of_Z 0, F32.of_Z 0)
    = (if px =? 0 then S754_nan else S754_infinity false,
       if py =? 0 then S754_nan else S754_infinity true,
       F32.of_Z 0, F32.of_Z 1).
Proof.
  intros px py Hx Hy. rewrite vert_main_binary32.
  destruct (zero_resolution_axis px) as [Hcx _]; [lia|].
  destruct (zero_resolution_axis py) as [_ Hcy]; [lia|].
  rewrite Hcx, Hcy. reflexivity.
Qed.

Lemma zero_size_canvas_not_finite_witness :
  Shader.vert_main (F32.of_Z 0, F32.of_Z 10) (F32.of_Z 0, F32.of_Z 0)
  = (S754_nan, S754_infinity true, F32.of_Z 0, F32.of_Z 1).
Proof.
  apply (zero_size_canvas_not_finite 0 10); lia.
Defined.
